(** * NIFITS extension objects, codecs and container: a shallow embedding

    The definitions below follow [nifits/io/oifits.py]: the station
    descriptor [OI_STATION], the generic extension classes
    ([NI_EXTENSION], [NI_EXTENSION_ARRAY], [NI_EXTENSION_CPX_ARRAY]) with
    their [from_hdu] / [to_hdu] codecs, the target list [OI_TARGET], the
    kind list [NIFITS_EXTENSIONS] with its [STATIC_EXTENSIONS] mask, and
    the container [nifits] with [from_nifits] / [to_nifits].

    Python exceptions are values of [exn] carried by the [py] monad;
    numpy's float64 is IEEE binary64, taken from the standard library's
    [SpecFloat] at precision 53; a Python object with attributes is a
    finite map from attribute names to values.  Output written with
    [print] is not part of the model. *)

From Stdlib Require Import ZArith Lia Bool List String Ascii.
From Stdlib Require Import Floats.SpecFloat.
From stdpp Require Import base option list strings pretty gmap.

Local Open Scope string_scope.
Local Open Scope Z_scope.
Local Open Scope list_scope.

(** ** Python results *)

Inductive exn : Set :=
| AssertionError | AttributeError | FileNotFoundError | IndexError
| KeyError | NameError | OSError | TypeError | ValueError.

Inductive py (A : Type) : Type :=
| Return (a : A)
| Raise (e : exn).
Arguments Return {A} a.
Arguments Raise {A} e.

#[global] Instance py_ret : MRet py := fun A a => Return a.
#[global] Instance py_bind : MBind py := fun A B f m =>
  match m with
  | Return a => f a
  | Raise e => Raise e
  end.

#[global] Instance py_fmap : FMap py := fun A B f m =>
  match m with
  | Return a => Return (f a)
  | Raise e => Raise e
  end.

Definition raises {A} (m : py A) : bool :=
  match m with Return _ => false | Raise _ => true end.

(** A [for] loop whose body may raise: the first exception ends the loop. *)
Fixpoint for_each {A S} (body : S -> A -> py S) (l : list A) (s : S) : py S :=
  match l with
  | [] => Return s
  | a :: l' => s' ← body s a; for_each body l' s'
  end.

(** ** float64 and complex128 *)

Module F64.
Definition prec : Z := 53.
Definition emax : Z := 1024.

Definition t := spec_float.

Definition add : t -> t -> t := SFadd prec emax.
Definition sub : t -> t -> t := SFsub prec emax.
Definition mul : t -> t -> t := SFmul prec emax.
(** Python's [==] and [!=] on floats. *)
Definition eqb : t -> t -> bool := SFeqb.
Definition neb (x y : t) : bool := negb (eqb x y).

Definition zero : t := S754_zero false.
Definition one : t := S754_finite false 4503599627370496 (-52).
Definition nan : t := S754_nan.

(** The values a float64 can hold. *)
Definition valid (x : t) : bool := valid_binary prec emax x.

Definition is_nan (x : t) : bool :=
  match x with S754_nan => true | _ => false end.
Definition is_neg_zero (x : t) : bool :=
  match x with S754_zero true => true | _ => false end.
End F64.

Record complex : Set := Cpx { real : F64.t; imag : F64.t }.

Module C128.
(** A real operand is converted to complex before a complex operation. *)
Definition of_real (x : F64.t) : complex := Cpx x F64.zero.

(** The literal [1j]. *)
Definition j : complex := Cpx F64.zero F64.one.

Definition add (a b : complex) : complex :=
  Cpx (F64.add (real a) (real b)) (F64.add (imag a) (imag b)).

Definition mul (a b : complex) : complex :=
  Cpx (F64.sub (F64.mul (real a) (real b)) (F64.mul (imag a) (imag b)))
      (F64.add (F64.mul (real a) (imag b)) (F64.mul (imag a) (real b))).

Definition valid (z : complex) : bool := F64.valid (real z) && F64.valid (imag z).
End C128.

(** ** numpy arrays: a shape and the elements in row-major order *)

Record ndarray (A : Type) : Type := NdArray { shape : list nat; flat : list A }.
Arguments NdArray {A} shape flat.
Arguments shape {A} n.
Arguments flat {A} n.

Module np.
Definition size (s : list nat) : nat := foldr Nat.mul 1%nat s.

Definition wf {A} (a : ndarray A) : Prop := length (flat a) = size (shape a).

(** [a[i]]: the [i]-th slice along the leading axis. *)
Definition getitem {A} (a : ndarray A) (i : nat) : py (ndarray A) :=
  match shape a with
  | [] => Raise IndexError
  | d :: s =>
      if (i <? d)%nat
      then Return (NdArray s (take (size s) (drop (i * size s) (flat a))))
      else Raise IndexError
  end.

Definition map {A B} (f : A -> B) (a : ndarray A) : ndarray B :=
  NdArray (shape a) (f <$> flat a).

(** An element-wise binary operation on two arrays of one shape. *)
Definition map2 {A B C} (f : A -> B -> C) (a : ndarray A) (b : ndarray B) : ndarray C :=
  NdArray (shape a) (zip_with f (flat a) (flat b)).

(** [np.array([a, b])]: stacking two arrays of one shape along a new
    leading axis. *)
Definition stack2 {A} (a b : ndarray A) : ndarray A :=
  NdArray (2%nat :: shape a) (flat a ++ flat b).
End np.

(** ** FITS headers, tables and records *)

Inductive hvalue : Set :=
| HUndef
| HBool (b : bool)
| HInt (n : Z)
| HStr (s : string).

Record card : Set := Card { keyword : string; value : hvalue; comment : string }.

(** A header is an ordered sequence of cards. *)
Definition Header : Set := list card.

Fixpoint header_get (h : Header) (k : string) : option hvalue :=
  match h with
  | [] => None
  | c :: h' => if String.eqb (keyword c) k then Some (value c) else header_get h' k
  end.

(** [header[k] = v]: the card with that keyword is updated in place, or a
    new card is appended. *)
Fixpoint header_set (h : Header) (k : string) (v : hvalue) : Header :=
  match h with
  | [] => [Card k v ""]
  | c :: h' =>
      if String.eqb (keyword c) k
      then Card k v (comment c) :: h'
      else c :: header_set h' k v
  end.

Inductive dtype : Set := dt_int | dt_float | dt_str.

Inductive cell : Type :=
| CInt (n : Z)
| CFloat (x : F64.t)
| CStr (s : string)
| CArr (a : ndarray F64.t).

(** An astropy table: named, typed columns and the rows, oldest first. *)
Record Table : Type := mkTable {
  colnames : list string;
  dtypes : list dtype;
  rows : list (list cell)
}.

(** [Table()] *)
Definition Table_empty : Table := mkTable [] [] [].

(** [Table(names=..., dtype=...)] *)
Definition Table_of_schema (names : list string) (dtype : list dtype) : Table :=
  mkTable names dtype [].

(** The integers an [int64] column holds. *)
Definition int64_ok (n : Z) : bool := (- 2 ^ 63 <=? n) && (n <? 2 ^ 63).

(** A fixed-width string column pads with NUL characters, so a string
    read back from it has lost the NUL characters it ended with. *)
Definition NUL : ascii := Ascii.zero.

Fixpoint rstrip_nul (s : string) : string :=
  match s with
  | EmptyString => EmptyString
  | String c s' =>
      match rstrip_nul s' with
      | EmptyString => if Ascii.eqb c NUL then EmptyString else String c EmptyString
      | r => String c r
      end
  end.

(** No spelling of a number holds one of these letters. *)
Definition no_number_letter (c : ascii) : bool :=
  existsb (Ascii.eqb c) (list_ascii_of_string "ghklmoqrsuvwzGHKLMOQRSUVWZ").

Fixpoint never_numeric (s : string) : bool :=
  match s with
  | EmptyString => false
  | String c s' => no_number_letter c || never_numeric s'
  end.

(** The conversion of a value to the type of the column that receives
    it.  An integer enters an integer column when it fits 64 bits, a
    float enters a float column as it is, a string enters a string
    column, which widens as needed.  A string that spells no number does
    not enter a number column.  What numpy does with any other value of
    another kind than the column's (an integer for a float column, a
    string of digits for a number column, ...) is left to [coerce].
    [insert_row] turns every exception of a conversion into
    [ValueError]. *)
Definition convert (coerce : dtype -> cell -> py cell) (dt : dtype) (v : cell) : py cell :=
  let other :=
    match coerce dt v with
    | Return c => Return c
    | Raise _ => Raise ValueError
    end in
  match dt, v with
  | dt_int, CInt n => if int64_ok n then Return (CInt n) else Raise ValueError
  | dt_float, CFloat x => Return (CFloat x)
  | dt_str, CStr s => Return (CStr (rstrip_nul s))
  | (dt_int | dt_float), CStr s => if never_numeric s then Raise ValueError else other
  | _, _ => other
  end.

Fixpoint convert_row (coerce : dtype -> cell -> py cell)
    (dts : list dtype) (vals : list cell) : py (list cell) :=
  match dts, vals with
  | dt :: dts', v :: vals' =>
      c ← convert coerce dt v;
      r ← convert_row coerce dts' vals';
      Return (c :: r)
  | _, _ => Return []
  end.

(** [Table.add_row(vals)]: one value per column is required, and each
    value is converted to the type of its column. *)
Definition add_row (coerce : dtype -> cell -> py cell) (t : Table) (vals : list cell)
  : py Table :=
  if (length vals =? length (colnames t))%nat
  then
    row ← convert_row coerce (dtypes t) vals;
    Return (mkTable (colnames t) (dtypes t) (rows t ++ [row]))
  else Raise ValueError.

Definition n_rows (t : Table) : nat := length (rows t).
Definition n_cols (t : Table) : nat := length (colnames t).

(** What a record exposes as [hdu.data]: nothing, the rows of a binary
    table, or a real image array. *)
Inductive hdu_data : Type :=
| NoData
| TableData (t : Table)
| ImageData (a : ndarray F64.t).

(** A record of a FITS file.  [hdu_name] is the name under which the
    record list finds it: [hdu.name] in upper case and without
    surrounding blanks. *)
Record HDU : Type := mkHDU {
  hdu_name : string;
  hdu_header : Header;
  hdu_data_of : hdu_data
}.

(** [hdulist.index_of(name)] goes through the records in order and
    stops at the first one that bears the name; under the name
    ["PRIMARY"] the first record answers, whatever its own name. *)
Definition named (name : string) (h : HDU) : bool := String.eqb (hdu_name h) name.

Definition hdulist_find (hdulist : list HDU) (name : string) : option HDU :=
  if String.eqb name "PRIMARY" then head hdulist else find (named name) hdulist.

(** [hdulist.__contains__(name)] and [hdulist[name]] *)
Definition hdulist_contains (hdulist : list HDU) (name : string) : bool :=
  match hdulist_find hdulist name with
  | Some _ => true
  | None => false
  end.

Definition hdulist_getitem (hdulist : list HDU) (name : string) : py HDU :=
  match hdulist_find hdulist name with
  | Some h => Return h
  | None => Raise KeyError
  end.

(** ** Strings *)

Definition lower_ascii (c : ascii) : ascii :=
  let n := nat_of_ascii c in
  if ((65 <=? n) && (n <=? 90))%nat then ascii_of_nat (n + 32) else c.

(** [str.lower()] *)
Fixpoint lower (s : string) : string :=
  match s with
  | EmptyString => EmptyString
  | String c s' => String (lower_ascii c) (lower s')
  end.

(** ** [array_eq] and the station descriptor [OI_STATION] *)

(** A Python float object: its identity and the value it holds.  Two
    names or two list slots may refer to one object. *)
Record pyfloat : Set := PyFloat { float_id : positive; float_val : F64.t }.

(** Python's [!=] on the value kinds a station holds; [None] is unequal
    to everything but [None]. *)
Definition opt_ne {A} (ne : A -> A -> bool) (a b : option A) : bool :=
  match a, b with
  | None, None => false
  | Some x, Some y => ne x y
  | _, _ => true
  end.

Definition str_ne (a b : string) : bool := negb (String.eqb a b).

(** The comparison of two list items: one and the same object is equal
    to itself, before [==] is asked. *)
Definition item_ne (x y : option pyfloat) : bool :=
  match x, y with
  | None, None => false
  | Some a, Some b =>
      negb (Pos.eqb (float_id a) (float_id b)) && F64.neb (float_val a) (float_val b)
  | _, _ => true
  end.

(** [!=] on two Python lists: unequal lengths, or some position where
    the items are unequal. *)
Fixpoint list_ne {A} (ne : A -> A -> bool) (a b : list A) : bool :=
  match a, b with
  | [], [] => false
  | x :: a', y :: b' => ne x y || list_ne ne a' b'
  | _, _ => true
  end.

(** [array_eq(a, b)] on two lists of coordinates.  [a != b] is then a
    plain [bool], [.any()] raises on it, and the [except] branch returns
    [not (a != b)]. *)
Definition array_eq (a b : list (option pyfloat)) : bool :=
  if negb (length a =? length b)%nat then false
  else negb (list_ne item_ne a b).

(** The functions of two coordinate lists the module defines at top
    level, by name.  A name that is not bound raises [NameError] when it
    is called. *)
Definition module_function (name : string)
  : option (list (option pyfloat) -> list (option pyfloat) -> bool) :=
  if String.eqb name "array_eq" then Some array_eq else None.

Definition call_global (name : string) (a b : list (option pyfloat)) : py bool :=
  match module_function name with
  | Some f => Return (f a b)
  | None => Raise NameError
  end.

Record OI_STATION : Type := mkStation {
  revision : Z;
  tel_name : option string;
  sta_name : option string;
  diameter : option F64.t;
  staxyz : list (option pyfloat);
  fov : option F64.t;
  fovtype : option string
}.

Inductive warning : Set :=
| UserWarning_revision_not_implemented (revision : Z).

(** [OI_STATION.__init__]: the new station, and the warnings emitted. *)
Definition OI_STATION_init
    (tel_name sta_name : option string) (diameter : option F64.t)
    (staxyz : list (option pyfloat)) (fov : option F64.t)
    (fovtype : option string) (revision : Z) : OI_STATION * list warning :=
  let warned :=
    if revision >? 2 then [UserWarning_revision_not_implemented revision] else [] in
  let self :=
    if revision >=? 2
    then mkStation revision tel_name sta_name diameter staxyz fov fovtype
    else mkStation revision tel_name sta_name diameter staxyz None None in
  (self, warned).

(** The default arguments of the constructor. *)
Definition OI_STATION_default : OI_STATION * list warning :=
  OI_STATION_init None None None [None; None; None] None None 1.

(** What a station may be compared with. *)
Inductive pyobject : Type :=
| ObjStation (s : OI_STATION)
| ObjOther.

(** [OI_STATION.__eq__]: the [or] chain is evaluated left to right and
    stops at the first true disjunct. *)
Definition OI_STATION_eq (self : OI_STATION) (other : pyobject) : py bool :=
  match other with
  | ObjOther => Return false
  | ObjStation other =>
      if negb (revision self =? revision other) then Return false
      else if opt_ne str_ne (tel_name self) (tel_name other) then Return false
      else if opt_ne str_ne (sta_name self) (sta_name other) then Return false
      else if opt_ne F64.neb (diameter self) (diameter other) then Return false
      else
        same_xyz ← call_global "_array_eq" (staxyz self) (staxyz other);
        if negb same_xyz then Return false
        else if opt_ne F64.neb (fov self) (fov other) then Return false
        else Return (negb (opt_ne str_ne (fovtype self) (fovtype other)))
  end.

(** [OI_STATION.__ne__] *)
Definition OI_STATION_ne (self : OI_STATION) (other : pyobject) : py bool :=
  negb <$> OI_STATION_eq self other.

(** ** Extension classes and their instances *)

(** The classes the module binds under the names of the extension kinds
    (for a name defined twice, the later definition). *)
Inductive ext_class : Set :=
| OI_ARRAY | OI_WAVELENGTH | OI_TARGET | NI_CATM | NI_FOV
| NI_KMAT | NI_MOD | NI_IOUT | NI_KIOUT | NI_KCOV.

#[global] Instance ext_class_eq_dec : EqDecision ext_class.
Proof. solve_decision. Defined.

(** The generic class a kind derives from fixes its payload variant:
    [NI_EXTENSION] (a table), [NI_EXTENSION_ARRAY] (a real array) or
    [NI_EXTENSION_CPX_ARRAY] (a complex array). *)
Inductive codec : Set := TableCodec | ArrayCodec | CpxArrayCodec.

Definition codec_of (c : ext_class) : codec :=
  match c with
  | NI_CATM => CpxArrayCodec
  | NI_KMAT | NI_KCOV => ArrayCodec
  | OI_ARRAY | OI_WAVELENGTH | OI_TARGET | NI_FOV | NI_MOD | NI_IOUT | NI_KIOUT =>
      TableCodec
  end.

(** The class attribute [name].  The definition of [NI_KCOV] that the
    module ends up with declares none. *)
Definition class_name (c : ext_class) : option string :=
  match c with
  | OI_ARRAY => Some "OI_ARRAY"
  | OI_WAVELENGTH => Some "OI_WAVELENGTH"
  | OI_TARGET => Some "OI_TARGET"
  | NI_CATM => Some "NI_CATM"
  | NI_FOV => Some "NI_FOV"
  | NI_KMAT => Some "NI_KMAT"
  | NI_MOD => Some "NI_MOD"
  | NI_IOUT => Some "NI_IOUT"
  | NI_KIOUT => Some "NI_KIOUT"
  | NI_KCOV => None
  end.

(** [self.name] *)
Definition get_name (c : ext_class) : py string :=
  match class_name c with
  | Some n => Return n
  | None => Raise AttributeError
  end.

(** [getclass(classname)]: the module attribute of that name. *)
Definition getclass (classname : string) : py ext_class :=
  if String.eqb classname "OI_ARRAY" then Return OI_ARRAY
  else if String.eqb classname "OI_WAVELENGTH" then Return OI_WAVELENGTH
  else if String.eqb classname "OI_TARGET" then Return OI_TARGET
  else if String.eqb classname "NI_CATM" then Return NI_CATM
  else if String.eqb classname "NI_FOV" then Return NI_FOV
  else if String.eqb classname "NI_KMAT" then Return NI_KMAT
  else if String.eqb classname "NI_MOD" then Return NI_MOD
  else if String.eqb classname "NI_IOUT" then Return NI_IOUT
  else if String.eqb classname "NI_KIOUT" then Return NI_KIOUT
  else if String.eqb classname "NI_KCOV" then Return NI_KCOV
  else Raise AttributeError.

(** What the attribute [data_array] of an array object may hold. *)
Inductive array_value : Type :=
| ANone
| ARec (t : Table)
| AReal (a : ndarray F64.t)
| ACpx (a : ndarray complex).

(** An extension object.  [data_array] is an attribute of the two array
    classes only; on a table object it is never read. *)
Record NI_EXTENSION : Type := mkExt {
  class_of : ext_class;
  data_table : Table;
  header : Header;
  data_array : array_value
}.

Definition set_header (self : NI_EXTENSION) (h : Header) : NI_EXTENSION :=
  mkExt (class_of self) (data_table self) h (data_array self).

Definition set_data_table (self : NI_EXTENSION) (t : Table) : NI_EXTENSION :=
  mkExt (class_of self) t (header self) (data_array self).

(** ** The record constructors of the FITS library

    [BinTableHDU(name, data, header)] and [ImageHDU(name, data, header)]
    build the header of the new record: the structural cards computed
    from the payload come first, the other cards of the given header
    follow, and [EXTNAME] is set to the name.  The byte width of a table
    row and the binary format of its columns are not represented. *)

Definition is_structural (k : string) : bool :=
  existsb (String.eqb k) ["XTENSION"; "BITPIX"; "PCOUNT"; "GCOUNT"; "TFIELDS"]
  || String.prefix "NAXIS" k || String.prefix "TTYPE" k || String.prefix "TFORM" k.

Definition strip (h : Header) : Header :=
  filter (fun c => is_structural (keyword c) = false) h.

Definition numbered_cards (prefix : string) (vals : list hvalue) : Header :=
  imap (fun i v => Card (prefix +:+ pretty (S i)) v "") vals.

Definition table_cards (t : Table) : Header :=
  [Card "XTENSION" (HStr "BINTABLE") ""; Card "BITPIX" (HInt 8) "";
   Card "NAXIS" (HInt 2) ""; Card "NAXIS2" (HInt (Z.of_nat (n_rows t))) "";
   Card "PCOUNT" (HInt 0) ""; Card "GCOUNT" (HInt 1) "";
   Card "TFIELDS" (HInt (Z.of_nat (n_cols t))) ""]
  ++ numbered_cards "TTYPE" (HStr <$> colnames t).

Definition image_cards (s : list nat) : Header :=
  [Card "XTENSION" (HStr "IMAGE") ""; Card "BITPIX" (HInt (-64)) "";
   Card "NAXIS" (HInt (Z.of_nat (length s))) ""]
  ++ numbered_cards "NAXIS" ((fun d => HInt (Z.of_nat d)) <$> rev s)
  ++ [Card "PCOUNT" (HInt 0) ""; Card "GCOUNT" (HInt 1) ""].

(** The structural cards of an image record without data. *)
Definition no_data_cards : Header :=
  [Card "XTENSION" (HStr "IMAGE") ""; Card "BITPIX" (HInt 8) "";
   Card "NAXIS" (HInt 0) ""; Card "PCOUNT" (HInt 0) ""; Card "GCOUNT" (HInt 1) ""].

Definition BinTableHDU (name : string) (data : Table) (header : Header) : HDU :=
  mkHDU name (header_set (table_cards data ++ strip header) "EXTNAME" (HStr name))
        (TableData data).

(** An image record takes a real array or no data; any other payload has
    no FITS pixel type. *)
Definition ImageHDU (name : string) (data : array_value) (header : Header) : py HDU :=
  match data with
  | ANone =>
      Return (mkHDU name (header_set (no_data_cards ++ strip header) "EXTNAME" (HStr name))
                    NoData)
  | AReal a =>
      Return (mkHDU name
                    (header_set (image_cards (shape a) ++ strip header) "EXTNAME" (HStr name))
                    (ImageData a))
  | ARec _ | ACpx _ => Raise KeyError
  end.

(** [PrimaryHDU()] *)
Definition PrimaryHDU_header : Header :=
  [Card "SIMPLE" (HBool true) ""; Card "BITPIX" (HInt 8) "";
   Card "NAXIS" (HInt 0) ""; Card "EXTEND" (HBool true) ""].

(** [Table(data)] on what a record exposes.  From the rows of a binary
    table it is that table, from no data the empty table.  From a bare
    array of rank at least two it has one row per leading index and the
    columns [col0], [col1], ... along the second axis; a vector is taken
    as a single row, and a vector without elements as no data.  A table
    without columns has no rows. *)
Fixpoint chunks {A} (k : nat) (n : nat) (l : list A) : list (list A) :=
  match n with
  | O => []
  | S n' => take k l :: chunks k n' (drop k l)
  end.

Definition default_colnames (n : nat) : list string :=
  (fun i => "col" +:+ pretty i) <$> seq 0 n.

Definition Table_of_ndarray (a : ndarray F64.t) : py Table :=
  match shape a with
  | [] => Raise ValueError
  | [n] =>
      if (n =? 0)%nat then Return Table_empty
      else Return (mkTable (default_colnames n) (replicate n dt_float) [CFloat <$> flat a])
  | n :: m :: rest =>
      let cell_of (xs : list F64.t) : cell :=
        match rest, xs with
        | [], [x] => CFloat x
        | _, _ => CArr (NdArray rest xs)
        end in
      if (m =? 0)%nat then Return Table_empty
      else Return (mkTable (default_colnames m) (replicate m dt_float)
                     ((fun r => cell_of <$> chunks (np.size rest) m r)
                        <$> chunks (m * np.size rest) n (flat a)))
  end.

Definition Table_of_data (d : hdu_data) : py Table :=
  match d with
  | NoData => Return Table_empty
  | TableData t => Return t
  | ImageData a => Table_of_ndarray a
  end.

(** ** The codecs: [from_hdu] and [to_hdu] *)

Definition array_value_of_data (d : hdu_data) : array_value :=
  match d with
  | NoData => ANone
  | TableData t => ARec t
  | ImageData a => AReal a
  end.

(** [hdu.data[0] + 1j*hdu.data[1]] on two real planes. *)
Definition merge_planes (re im : ndarray F64.t) : ndarray complex :=
  np.map2 C128.add (np.map C128.of_real re)
          (np.map (C128.mul C128.j) (np.map C128.of_real im)).

(** [np.array([z.real, z.imag], dtype=float)] *)
Definition split_planes (z : ndarray complex) : ndarray F64.t :=
  np.stack2 (np.map real z) (np.map imag z).

(** [hdu.data.shape[0]], where the payload has a shape with a leading
    axis: the rows of a table have the shape (n_rows,). *)
Definition leading_dimension (d : hdu_data) : option nat :=
  match d with
  | NoData => None
  | TableData t => Some (n_rows t)
  | ImageData a => head (shape a)
  end.

(** [NI_EXTENSION_CPX_ARRAY.from_hdu] *)
Definition cpx_from_hdu (c : ext_class) (hdu : HDU) : py NI_EXTENSION :=
  match hdu_data_of hdu with
  | NoData => Raise AttributeError
  | TableData t =>
      (* the rows of a table have shape (n_rows,), and its rows are records *)
      if (n_rows t =? 2)%nat then Raise TypeError else Raise AssertionError
  | ImageData a =>
      match shape a with
      | [] => Raise IndexError
      | d :: _ =>
          if (d =? 2)%nat then
            re ← np.getitem a 0;
            im ← np.getitem a 1;
            Return (mkExt c Table_empty (hdu_header hdu) (ACpx (merge_planes re im)))
          else Raise AssertionError
      end
  end.

(** [cls.from_hdu(hdu)], by the generic class of [cls]. *)
Definition from_hdu (c : ext_class) (hdu : HDU) : py NI_EXTENSION :=
  match codec_of c with
  | TableCodec =>
      data_table ← Table_of_data (hdu_data_of hdu);
      Return (mkExt c data_table (hdu_header hdu) ANone)
  | ArrayCodec =>
      Return (mkExt c Table_empty (hdu_header hdu) (array_value_of_data (hdu_data_of hdu)))
  | CpxArrayCodec => cpx_from_hdu c hdu
  end.

(** The values of a table that has a single column of floats. *)
Definition float_column (t : Table) : option (list F64.t) :=
  match dtypes t with
  | [dt_float] =>
      mapM (fun row => match row with [CFloat x] => Some x | _ => None end) (rows t)
  | _ => None
  end.

(** [np.array([rec.real, rec.imag], dtype=float)] on the rows of a
    table.  The real part of a record array is the array itself and its
    imaginary part is filled with zeros; records of a single float field
    convert to that float, records of several fields do not convert. *)
Definition rec_planes (t : Table) : py (ndarray F64.t) :=
  match float_column t with
  | Some xs =>
      let re := NdArray [length xs] xs in
      Return (np.stack2 re (np.map (fun _ => F64.zero) re))
  | None => Raise TypeError
  end.

(** [self.to_hdu()]: the record, and [self] after the call. *)
Definition to_hdu (self : NI_EXTENSION) : py (HDU * NI_EXTENSION) :=
  match codec_of (class_of self) with
  | TableCodec =>
      name ← get_name (class_of self);
      let myhdu := BinTableHDU name (data_table self) (header self) in
      Return (myhdu, set_header self (hdu_header myhdu))
  | ArrayCodec =>
      name ← get_name (class_of self);
      myhdu ← ImageHDU name (data_array self) (header self);
      Return (myhdu, set_header self (hdu_header myhdu))
  | CpxArrayCodec =>
      real_valued_data ←
        match data_array self with
        | ACpx z => Return (split_planes z)
        | AReal a => Return (np.stack2 a (np.map (fun _ => F64.zero) a))
        | ANone => Raise AttributeError
        | ARec t => rec_planes t
        end;
      name ← get_name (class_of self);
      myhdu ← ImageHDU name (AReal real_valued_data) (header self);
      Return (myhdu, set_header self (hdu_header myhdu))
  end.

(** Encoding an object and decoding the record again, and the converse. *)
Definition decode_encode (self : NI_EXTENSION) : py NI_EXTENSION :=
  '(myhdu, _) ← to_hdu self;
  from_hdu (class_of self) myhdu.


(** The complex number the decoder builds from one real-plane value and
    one imaginary-plane value. *)
Definition merge1 (a b : F64.t) : complex :=
  C128.add (C128.of_real a) (C128.mul C128.j (C128.of_real b)).
Arguments merge1 : simpl never.

(** The complex values the merge reproduces: the imaginary part is
    finite and not a negative zero, and the real part is not a negative
    zero unless the imaginary part is negative; or the real part is NaN
    beside an infinite or NaN imaginary part. *)
Definition survives (z : complex) : bool :=
  match imag z with
  | S754_nan | S754_infinity _ => F64.is_nan (real z)
  | S754_zero true => false
  | S754_zero false => negb (F64.is_neg_zero (real z))
  | S754_finite sb _ _ => negb (F64.is_neg_zero (real z) && negb sb)
  end.

(** Finite values other than the negative zero. *)
Definition plain (x : F64.t) : bool :=
  match x with
  | S754_zero false | S754_finite _ _ _ => true
  | _ => false
  end.


(** ** The target list [OI_TARGET] *)

Definition OI_TARGET_names : list string :=
  ["TARGET_ID"; "TARGET"; "RAEP0"; "DECEP0";
   "EQUINOX"; "RA_ERR"; "DEC_ERR";
   "SYSVEL"; "VELTYP"; "VELDEF";
   "PMRA"; "PMDEC"; "PMRA_ERR"; "PMDEC_ERR";
   "PARALLAX"; "PARA_ERR"; "SPECTYP"; "CATEGORY"].

Definition OI_TARGET_dtype : list dtype :=
  [dt_int; dt_str; dt_float; dt_float;
   dt_float; dt_float; dt_float;
   dt_float; dt_str; dt_str;
   dt_float; dt_float; dt_float; dt_float;
   dt_float; dt_float; dt_str; dt_str].

(** [OI_TARGET.from_scratch()] *)
Definition from_scratch : NI_EXTENSION :=
  mkExt OI_TARGET (Table_of_schema OI_TARGET_names OI_TARGET_dtype) [] ANone.

(** The arguments of [add_target]. *)
Record target_args : Type := mkTarget {
  target_id : Z; target : string; raep0 : F64.t; decep0 : F64.t;
  equinox : F64.t; ra_err : F64.t; dec_err : F64.t;
  sysvel : F64.t; veltyp : string; veldef : string;
  pmra : F64.t; pmdec : F64.t; pmra_err : F64.t; pmdec_err : F64.t;
  parallax : F64.t; para_err : F64.t; spectyp : string; category : string
}.

(** The same arguments with another identifier. *)
Definition with_target_id (i : Z) (a : target_args) : target_args :=
  mkTarget i (target a) (raep0 a) (decep0 a)
           (equinox a) (ra_err a) (dec_err a)
           (sysvel a) (veltyp a) (veldef a)
           (pmra a) (pmdec a) (pmra_err a) (pmdec_err a)
           (parallax a) (para_err a) (spectyp a) (category a).

(** The documented defaults. *)
Definition default_target : target_args :=
  mkTarget 0 "MyTarget" F64.zero F64.zero
           F64.zero F64.zero F64.zero
           F64.zero "" ""
           F64.zero F64.zero F64.zero F64.zero
           F64.zero F64.zero "" "".

Definition target_vals (a : target_args) : list cell :=
  [CInt (target_id a); CStr (target a); CFloat (raep0 a); CFloat (decep0 a);
   CFloat (equinox a); CFloat (ra_err a); CFloat (dec_err a);
   CFloat (sysvel a); CStr (veltyp a); CStr (veldef a);
   CFloat (pmra a); CFloat (pmdec a); CFloat (pmra_err a); CFloat (pmdec_err a);
   CFloat (parallax a); CFloat (para_err a); CStr (spectyp a); CStr (category a)].

(** [self.add_target(...)]: [self] after the call. *)
Definition add_target (coerce : dtype -> cell -> py cell)
    (self : NI_EXTENSION) (a : target_args) : py NI_EXTENSION :=
  t ← add_row coerce (data_table self) (target_vals a);
  Return (set_data_table self t).

(** A sequence of [add_target] calls, in order. *)
Definition add_targets (coerce : dtype -> cell -> py cell)
    (self : NI_EXTENSION) (calls : list target_args) : py NI_EXTENSION :=
  for_each (add_target coerce) calls self.

(** The row a table with the columns of [from_scratch] holds for the
    values of one call. *)
Definition stored_row (a : target_args) : list cell :=
  [CInt (target_id a); CStr (rstrip_nul (target a)); CFloat (raep0 a); CFloat (decep0 a);
   CFloat (equinox a); CFloat (ra_err a); CFloat (dec_err a);
   CFloat (sysvel a); CStr (rstrip_nul (veltyp a)); CStr (rstrip_nul (veldef a));
   CFloat (pmra a); CFloat (pmdec a); CFloat (pmra_err a); CFloat (pmdec_err a);
   CFloat (parallax a); CFloat (para_err a);
   CStr (rstrip_nul (spectyp a)); CStr (rstrip_nul (category a))].

(** ** The kind list and its static mask *)

Definition NIFITS_EXTENSIONS : list string :=
  ["OI_ARRAY";
   "OI_WAVELENGTH";
   "NI_CATM";
   "NI_FOV";
   "NI_KMAT";
   "NI_MOD";
   "NI_IOUT";
   "NI_KIOUT";
   "NI_KCOV"].

Definition STATIC_EXTENSIONS : list bool :=
  [true;
   true;
   true;
   true;
   false;
   false;
   false;
   false;
   false].

(** The two parts the mask selects. *)
Definition static_kinds : list string :=
  ["OI_ARRAY"; "OI_WAVELENGTH"; "NI_CATM"; "NI_FOV"].

Definition dynamic_kinds : list string :=
  ["NI_KMAT"; "NI_MOD"; "NI_IOUT"; "NI_KIOUT"; "NI_KCOV"].

(** [a[mask]]: indexing an array with a list of booleans of its length. *)
Definition mask_index {A} (a : list A) (mask : list bool) : py (list A) :=
  if (length mask =? length a)%nat
  then Return ((filter (fun am => am.2 = true) (zip a mask)).*1)
  else Raise IndexError.

(** ** The container [nifits] *)

(** The values an attribute of the container may hold. *)
Inductive pyval : Type :=
| PyNone
| PyHeader (h : Header)
| PyExt (o : NI_EXTENSION)
| PyMethod.

(** An instance: its attribute dictionary. *)
Record nifits : Type := mkNifits { dict : gmap string pyval }.

(** The fields the class declares, each with the default [None]. *)
Definition nifits_fields : list string :=
  ["header"; "ni_catm"; "ni_fov"; "ni_kmat"; "oi_wavelength"; "oi_target";
   "ni_mod"; "ni_iout"; "ni_kiout"; "ni_kcov"].

(** The attributes of the class itself: the field defaults and the two
    methods. *)
Definition class_attrs : gmap string pyval :=
  list_to_map (((fun f => (f, PyNone)) <$> nifits_fields)
                 ++ [("from_nifits", PyMethod); ("to_nifits", PyMethod)]).

(** The constructor called with the entries of [obj_dict] as keyword
    arguments: a keyword that is not a field is refused. *)
Definition nifits_init (obj_dict : gmap string pyval) : py nifits :=
  if bool_decide (map_Forall (fun k _ => k ∈ nifits_fields) obj_dict)
  then Return (mkNifits (obj_dict ∪ list_to_map ((fun f => (f, PyNone)) <$> nifits_fields)))
  else Raise TypeError.

(** [hasattr], [getattr] and [setattr]: the instance dictionary first,
    then the class. *)
Definition getattr (self : nifits) (name : string) : option pyval :=
  match dict self !! name with
  | Some v => Some v
  | None => class_attrs !! name
  end.

Definition hasattr (self : nifits) (name : string) : bool :=
  bool_decide (is_Some (getattr self name)).

Definition setattr (self : nifits) (name : string) (v : pyval) : nifits :=
  mkNifits (<[name := v]> (dict self)).

(** The files of the storage target, by name. *)
Definition storage : Type := gmap string (list HDU).

(** The empty string names no file. *)
Definition file_at (fs : storage) (filename : string) : option (list HDU) :=
  if String.eqb filename "" then None else fs !! filename.

(** [fits.open(filename)] *)
Definition fits_open (fs : storage) (filename : string) : py (list HDU) :=
  match file_at fs filename with
  | Some hdulist => Return hdulist
  | None => Raise FileNotFoundError
  end.

(** [hdulist.writeto(filename, overwrite=overwrite)] *)
Definition writeto (fs : storage) (hdulist : list HDU) (filename : string)
    (overwrite : bool) : py storage :=
  if String.eqb filename "" then Raise FileNotFoundError
  else
    match fs !! filename with
    | Some _ => if overwrite then Return (<[filename := hdulist]> fs) else Raise OSError
    | None => Return (<[filename := hdulist]> fs)
    end.

(** The argument of [from_nifits]: an opened record list or a file name. *)
Inductive source : Type :=
| Opened (hdulist : list HDU)
| Path (filename : string).

(** The body of the loop of [from_nifits]. *)
Definition load_step (hdulist : list HDU) (obj_dict : gmap string pyval)
    (anext : string) : py (gmap string pyval) :=
  if hdulist_contains hdulist anext then
    theclass ← getclass anext;
    hdu ← hdulist_getitem hdulist anext;
    theobj ← from_hdu theclass hdu;
    Return (<[lower anext := PyExt theobj]> obj_dict)
  else Return obj_dict.

(** What the loop does for a kind that is present: find the class, take
    the record, decode it. *)
Definition decode_kind (hdulist : list HDU) (anext : string) : py NI_EXTENSION :=
  theclass ← getclass anext;
  hdu ← hdulist_getitem hdulist anext;
  from_hdu theclass hdu.

(** [nifits.from_nifits(filename)] *)
Definition from_nifits (fs : storage) (filename : source) : py nifits :=
  hdulist ← match filename with
             | Opened hdulist => Return hdulist
             | Path f => fits_open fs f
             end;
  primary ← hdulist_getitem hdulist "PRIMARY";
  let obj_dict : gmap string pyval := {[ "header" := PyHeader (hdu_header primary) ]} in
  obj_dict ← for_each (load_step hdulist) NIFITS_EXTENSIONS obj_dict;
  nifits_init obj_dict.

(** The kinds a save goes through. *)
Definition extension_list (static_only dynamic_only : bool) : py (list string) :=
  if static_only then mask_index NIFITS_EXTENSIONS STATIC_EXTENSIONS
  else if dynamic_only then mask_index NIFITS_EXTENSIONS (negb <$> STATIC_EXTENSIONS)
  else Return NIFITS_EXTENSIONS.

(** The state of the loop of [to_nifits]: the container, the extension
    records appended so far, and the header of the primary record. *)
Record save_state : Type := mkSave {
  sv_self : nifits;
  sv_records : list HDU;
  sv_header : Header
}.

(** The body of the loop of [to_nifits]. *)
Definition save_step (st : save_state) (anext : string) : py save_state :=
  if hasattr (sv_self st) (lower anext) then
    match getattr (sv_self st) (lower anext) with
    | Some (PyExt theobj) =>
        '(thehdu, theobj') ← to_hdu theobj;
        Return (mkSave (setattr (sv_self st) (lower anext) (PyExt theobj'))
                       (sv_records st ++ [thehdu])
                       (header_set (sv_header st) anext (HStr "Included")))
    | _ => Raise AttributeError
    end
  else
    Return (mkSave (sv_self st) (sv_records st)
                   (header_set (sv_header st) anext (HStr "Not included"))).

(** What [to_nifits] leaves behind: the record list it returns, the
    container and the storage after the call. *)
Record saved : Type := mkSaved {
  hdulist_of : list HDU;
  self_of : nifits;
  storage_of : storage
}.

(** [self.to_nifits(filename, static_only, dynamic_only, static_hash,
    writefile, overwrite)] *)
Definition to_nifits (self : nifits) (fs : storage) (filename : string)
    (static_only dynamic_only : bool) (static_hash : string)
    (writefile overwrite : bool) : py saved :=
  extension_list ← extension_list static_only dynamic_only;
  st ← for_each save_step extension_list (mkSave self [] PrimaryHDU_header);
  let hdulist := mkHDU "PRIMARY" (sv_header st) NoData :: sv_records st in
  if writefile then
    fs' ← writeto fs hdulist filename overwrite;
    Return (mkSaved hdulist (sv_self st) fs')
  else Return (mkSaved hdulist (sv_self st) fs).

(** The manifest flag the primary record of a saved list carries for a
    kind. *)
Definition manifest_flag (hdulist : list HDU) (kind : string) : option hvalue :=
  match hdulist with
  | [] => None
  | primary :: _ => header_get (hdu_header primary) kind
  end.

(** What a save needs of the slot of a kind: if the attribute exists, it
    holds an extension object whose encoding succeeds. *)
Definition saveable (self : nifits) (k : string) : Prop :=
  hasattr self (lower k) = true ->
  exists theobj, getattr self (lower k) = Some (PyExt theobj)
                 /\ raises (to_hdu theobj) = false.

(** The flag the loop writes for a kind. *)
Definition flag_of (self : nifits) (k : string) : hvalue :=
  HStr (if hasattr self (lower k) then "Included" else "Not included").

(** ** Views used by the statements about loading and saving *)

(** What the loop of [from_nifits] binds for a kind whose decode
    succeeds. *)
Definition decoded (hdulist : list HDU) (anext : string) : option pyval :=
  match decode_kind hdulist anext with
  | Return theobj => Some (PyExt theobj)
  | Raise _ => None
  end.

(** The record and the updated object the loop of [to_nifits] gets from
    the slot of a kind, when the slot holds an object that encodes. *)
Definition encoded (self : nifits) (anext : string) : option (HDU * NI_EXTENSION) :=
  match getattr self (lower anext) with
  | Some (PyExt theobj) =>
      match to_hdu theobj with
      | Return r => Some r
      | Raise _ => None
      end
  | _ => None
  end.

(** Python's [==] on two complex numbers. *)
Definition cpx_eqb (a b : complex) : bool :=
  F64.eqb (real a) (real b) && F64.eqb (imag a) (imag b).

(** Neither infinite nor NaN. *)
Definition finite (x : F64.t) : bool :=
  match x with
  | S754_zero _ | S754_finite _ _ _ => true
  | _ => false
  end.

(** ** The file-information loop of the viewer ([gui/niview.py])

    The viewer goes through the kind list and collects the kinds for
    which the loaded container has an attribute. *)
Definition exitsting_extensions (mynifits : nifits) : list string :=
  foldl (fun acc anext => if hasattr mynifits (lower anext) then acc ++ [anext] else acc)
        [] NIFITS_EXTENSIONS.

(** ** Sample values *)

Module Sample.
Definition x_plain : ndarray complex :=
  NdArray [2%nat] [Cpx F64.one F64.one; Cpx F64.zero F64.one].
Definition y_plain : ndarray F64.t := NdArray [2%nat; 1%nat] [F64.one; F64.one].

Definition catm (z : ndarray complex) : NI_EXTENSION :=
  mkExt NI_CATM Table_empty [] (ACpx z).
Definition catm_hdu (y : ndarray F64.t) : HDU := mkHDU "NI_CATM" [] (ImageData y).

(** A record list with a transfer matrix of shape (3, 1) and a
    field-of-view table, and the same list without the transfer matrix. *)
Definition primary : HDU := mkHDU "PRIMARY" PrimaryHDU_header NoData.
Definition bad_catm : HDU :=
  mkHDU "NI_CATM" [] (ImageData (NdArray [3%nat; 1%nat] [F64.one; F64.one; F64.one])).
Definition fov_table : HDU := BinTableHDU "NI_FOV" Table_empty [].
Definition bad_source : list HDU := [primary; bad_catm; fov_table].
Definition good_source : list HDU := [primary; fov_table].

(** The container built with no argument, every slot at [None], and one
    in which the wavelength grid, the transfer matrix and the field of
    view are populated and no [oi_array] attribute was ever set. *)
Definition wavelength : NI_EXTENSION := mkExt OI_WAVELENGTH Table_empty [] ANone.
Definition fov_model : NI_EXTENSION := mkExt NI_FOV Table_empty [] ANone.
Definition empty_container : nifits :=
  mkNifits (list_to_map ((fun f => (f, PyNone)) <$> nifits_fields)).
Definition static_container : nifits :=
  setattr (setattr (setattr empty_container
    "oi_wavelength" (PyExt wavelength))
    "ni_catm" (PyExt (catm x_plain)))
    "ni_fov" (PyExt fov_model).
(** The same with the array geometry set as an attribute by hand. *)
Definition four_static_container : nifits :=
  setattr static_container "oi_array" (PyExt (mkExt OI_ARRAY Table_empty [] ANone)).

(** A record list with an array-geometry table, one with an extra record
    of a name that is no kind, and two orders of the same records. *)
Definition array_source : list HDU :=
  [primary; BinTableHDU "OI_ARRAY" Table_empty []].
Definition history : HDU := mkHDU "HISTORY" [] NoData.
Definition catm_record : HDU := catm_hdu y_plain.
Definition two_kinds : list HDU := [catm_record; fov_table].
Definition two_kinds_swapped : list HDU := [fov_table; catm_record].

(** A conversion that refuses every value of another kind than the
    column's. *)
Definition no_coercion (dt : dtype) (v : cell) : py cell := Raise TypeError.

(** A kernel matrix holding a 1 x 2 real array. *)
Definition kmat : NI_EXTENSION :=
  mkExt NI_KMAT Table_empty [] (AReal (NdArray [1%nat; 2%nat] [F64.one; F64.zero])).
End Sample.

(** Closed decidable facts are settled by evaluation. *)
Ltac by_decide := apply (bool_decide_unpack _); vm_compute; exact I.

(** * Properties *)

(** ** The monad *)

Lemma bind_Return {A B} (f : A -> py B) (a : A) : (Return a ≫= f) = f a.
Proof. reflexivity. Qed.

Lemma bind_Raise {A B} (f : A -> py B) (e : exn) : (Raise e ≫= f) = Raise e.
Proof. reflexivity. Qed.

Lemma raises_false {A} (m : py A) : raises m = false -> exists a, m = Return a.
Proof. destruct m; [eauto | discriminate]. Qed.

(** ** float64: multiplying by one and adding zero *)

Section Binary64.
Import F64.

Lemma digits2_pos_shift (m n : positive) :
  Zpos (digits2_pos (Pos.iter xO m n)) = Zpos (digits2_pos m) + Zpos n.
Proof.
  revert m. induction n as [|n IH] using Pos.peano_ind; intros m.
  - simpl. lia.
  - rewrite Pos.iter_succ. simpl digits2_pos. rewrite Pos2Z.inj_succ, IH. lia.
Qed.

Lemma shr_fexp_shifted (m : positive) (e : Z) :
  fexp prec emax (Zpos (digits2_pos m) + e) = e ->
  shr_fexp prec emax (Zpos (Pos.iter xO m 52)) (-52 + e) loc_Exact
  = (Build_shr_record (Zpos m) false false, e).
Proof.
  intros Hc. unfold shr_fexp. cbn [Zdigits2 shr_record_of_loc].
  rewrite digits2_pos_shift.
  replace (Z.pos (digits2_pos m) + 52 + (-52 + e)) with (Z.pos (digits2_pos m) + e) by lia.
  rewrite Hc.
  replace (e - (-52 + e)) with 52 by lia.
  cbn [shr]. f_equal. lia.
Qed.

Lemma shr_fexp_canonical (m : positive) (e : Z) :
  fexp prec emax (Zpos (digits2_pos m) + e) = e ->
  shr_fexp prec emax (Zpos m) e loc_Exact
  = (Build_shr_record (Zpos m) false false, e).
Proof.
  intros Hc. unfold shr_fexp. cbn [Zdigits2 shr_record_of_loc].
  rewrite Hc, Z.sub_diag. reflexivity.
Qed.

(** [1.0 * x] is [x] for every float64 [x]. *)
Lemma mul_one_l (x : t) : valid x = true -> mul one x = x.
Proof.
  destruct x as [s|s| |s m e]; try reflexivity.
  unfold valid, valid_binary, bounded, canonical_mantissa.
  intros [Hc He]%andb_true_iff. apply Z.eqb_eq in Hc.
  unfold mul, one, SFmul, binary_round_aux.
  change (4503599627370496 * m)%positive with (Pos.iter xO m 52).
  rewrite (shr_fexp_shifted _ _ Hc).
  cbn [shr_m loc_of_shr_record round_nearest_even].
  rewrite (shr_fexp_canonical _ _ Hc). cbn [shr_m].
  rewrite He. reflexivity.
Qed.
End Binary64.

(** ** The merge of one element *)

Lemma merge1_unfold (a b : F64.t) :
  F64.valid b = true ->
  merge1 a b =
    Cpx (F64.add a (F64.sub (F64.mul F64.zero b) F64.zero))
        (F64.add F64.zero (F64.add F64.zero b)).
Proof.
  intros Hb. unfold merge1, C128.add, C128.mul, C128.of_real, C128.j. cbn [real imag].
  rewrite (mul_one_l b Hb). reflexivity.
Qed.


Lemma plain_survives (z : complex) :
  plain (real z) = true -> plain (imag z) = true -> survives z = true.
Proof.
  destruct z as [a b]. unfold survives. cbn [real imag].
  destruct b as [[]|[]| |[] mb eb], a as [[]|[]| |[] ma ea]; cbn; congruence.
Qed.

(** ** Planes of an array *)

Local Opaque merge1.

Lemma merge_planes_eq (re im : ndarray F64.t) :
  merge_planes re im = NdArray (shape re) (zip_with merge1 (flat re) (flat im)).
Proof.
  unfold merge_planes, np.map2, np.map. cbn [flat shape]. f_equal.
  rewrite zip_with_fmap_l, zip_with_fmap_r, zip_with_fmap_r. reflexivity.
Qed.

Lemma zip_with_merge1_parts (l : list complex) :
  zip_with merge1 (real <$> l) (imag <$> l) = (fun z => merge1 (real z) (imag z)) <$> l.
Proof. induction l as [|z l IH]; [reflexivity | cbn; rewrite IH; reflexivity]. Qed.





(** ** The complex-array codec *)

Lemma cpx_from_hdu_planes (c : ext_class) (name : string) (h : Header)
    (s : list nat) (xs : list F64.t) :
  cpx_from_hdu c (mkHDU name h (ImageData (NdArray (2%nat :: s) xs)))
  = Return (mkExt c Table_empty h
      (ACpx (NdArray s (zip_with merge1 (take (np.size s) xs)
                                 (take (np.size s) (drop (np.size s) xs)))))).
Proof.
  unfold cpx_from_hdu, np.getitem. cbn.
  rewrite Nat.add_0_r, merge_planes_eq. reflexivity.
Qed.

Lemma decode_encode_cpx (self : NI_EXTENSION) (z : ndarray complex) :
  codec_of (class_of self) = CpxArrayCodec ->
  data_array self = ACpx z ->
  np.wf z ->
  decode_encode self =
    Return (mkExt (class_of self) Table_empty
              (header_set (image_cards (2%nat :: shape z) ++ strip (header self))
                          "EXTNAME" (HStr "NI_CATM"))
              (ACpx (NdArray (shape z)
                       ((fun c => merge1 (real c) (imag c)) <$> flat z)))).
Proof.
  destruct self as [c t h d]. cbn [class_of data_array header].
  intros Hc -> Hwf. destruct c; try discriminate Hc.
  unfold decode_encode, to_hdu. cbn [class_of codec_of data_array header mbind py_bind
    get_name class_name ImageHDU split_planes np.stack2 np.map shape flat hdu_header].
  unfold from_hdu, split_planes, np.stack2, np.map. cbn [codec_of shape flat].
  rewrite cpx_from_hdu_planes.
  unfold np.wf in Hwf.
  rewrite take_app_length' by (rewrite length_fmap; lia).
  rewrite drop_app_length' by (rewrite length_fmap; lia).
  rewrite take_ge by (rewrite length_fmap; lia).
  rewrite zip_with_merge1_parts. reflexivity.
Qed.





(** When every part of every element is finite and none is a negative
    zero, every element survives. *)
Lemma plain_arrays_survive (l : list complex) :
  Forall (fun z => plain (real z) = true /\ plain (imag z) = true) l ->
  Forall (fun z => survives z = true) l.
Proof.
  intros H. eapply Forall_impl; [exact H |].
  intros z [Hr Hi]. apply plain_survives; assumption.
Qed.

(** C7.  Decoding a transfer-matrix record raises the assertion error
    exactly when the payload has a leading dimension and it is not 2; a
    payload array whose leading dimension is 2 is decoded with no error
    at all. *)
Theorem cpx_from_hdu_leading_dimension
    (hdu : HDU) (name : string) (hdr : Header) (s : list nat) (xs : list F64.t) :
  (from_hdu NI_CATM hdu = Raise AssertionError
   <-> exists d, leading_dimension (hdu_data_of hdu) = Some d /\ d <> 2%nat)
  /\ raises (from_hdu NI_CATM (mkHDU name hdr (ImageData (NdArray (2%nat :: s) xs))))
     = false.
Proof.
  unfold from_hdu. cbn [codec_of]. split.
  - destruct hdu as [n h [|t|[[|d sh] ys]]];
      cbn [hdu_data_of leading_dimension shape head].
    + split; [discriminate | intros (d & [=] & _)].
    + unfold cpx_from_hdu. cbn [hdu_data_of].
      destruct (Nat.eqb_spec (n_rows t) 2) as [Heq | Hne].
      * split; [discriminate | intros (d & [= <-] & Hd); contradiction].
      * split; [intros _; eauto | reflexivity].
    + split; [discriminate | intros (d & [=] & _)].
    + destruct (Nat.eqb_spec d 2) as [-> | Hne].
      * rewrite cpx_from_hdu_planes.
        split; [discriminate | intros (d & [= <-] & Hd); contradiction].
      * unfold cpx_from_hdu. cbn [hdu_data_of shape].
        apply Nat.eqb_neq in Hne as Hne'. rewrite Hne'.
        split; [intros _; eauto | reflexivity].
  - rewrite cpx_from_hdu_planes. reflexivity.
Qed.

(** ** The station descriptor *)

(** C6.  A station constructed with a revision below 2 stores no field
    of view and no field-of-view mode, whatever was passed. *)
Theorem OI_STATION_init_drops_fov
    (tel sta : option string) (diam : option F64.t)
    (xyz : list (option pyfloat)) (fov_given : option F64.t)
    (fovtype_given : option string) (rev : Z) :
  rev < 2 ->
  let self := (OI_STATION_init tel sta diam xyz fov_given fovtype_given rev).1 in
  fov self = None /\ fovtype self = None.
Proof.
  intros Hrev. unfold OI_STATION_init. cbn zeta.
  destruct (Z.geb_spec rev 2) as [Hge | _]; [lia |]. split; reflexivity.
Qed.

Lemma OI_STATION_init_drops_fov_witness :
  1 < 2
  /\ let self := (OI_STATION_init (Some "UT1") (Some "U1") (Some F64.one)
                    [Some (PyFloat 1 F64.zero); Some (PyFloat 2 F64.zero);
                     Some (PyFloat 3 F64.zero)]
                    (Some F64.one) (Some "radius") 1).1 in
     fov self = None /\ fovtype self = None.
Proof.
  split; [reflexivity |].
  apply (OI_STATION_init_drops_fov (Some "UT1") (Some "U1") (Some F64.one)
           [Some (PyFloat 1 F64.zero); Some (PyFloat 2 F64.zero);
            Some (PyFloat 3 F64.zero)]
           (Some F64.one) (Some "radius") 1).
  reflexivity.
Defined.

(** C5: what the comparison does.  It never answers "equal": it answers
    "unequal" when the other object is no station or differs in revision,
    a name or the diameter, and otherwise the call of the unbound name
    [_array_eq] raises [NameError]; so a station compared with itself
    raises. *)
Theorem OI_STATION_eq_never_equal :
  (forall (self : OI_STATION) (other : pyobject),
      OI_STATION_eq self other = Return false
      \/ OI_STATION_eq self other = Raise NameError)
  /\ OI_STATION_eq OI_STATION_default.1 (ObjStation OI_STATION_default.1)
     = Raise NameError
  /\ array_eq (staxyz OI_STATION_default.1) (staxyz OI_STATION_default.1) = true.
Proof.
  split; [| split; reflexivity].
  intros self [other|]; [| left; reflexivity]. unfold OI_STATION_eq.
  repeat match goal with
         | |- context [if ?b then _ else _] => destruct b; [left; reflexivity |]
         end.
  right. reflexivity.
Qed.

(** ** The kind list *)

Lemma extension_list_static (dynamic_only : bool) :
  extension_list true dynamic_only = Return static_kinds.
Proof. reflexivity. Qed.

Lemma extension_list_dynamic : extension_list false true = Return dynamic_kinds.
Proof. reflexivity. Qed.

Lemma extension_list_full : extension_list false false = Return NIFITS_EXTENSIONS.
Proof. reflexivity. Qed.

(** C4 as stated fails: the target list is a class of the module and a
    slot of the container, but its name is not in the kind list, so it is
    in neither part of the partition. *)
Lemma OI_TARGET_not_a_listed_kind :
  class_name OI_TARGET = Some "OI_TARGET"
  /\ ("oi_target" ∈ nifits_fields)
  /\ ("OI_TARGET" ∉ NIFITS_EXTENSIONS)
  /\ ("OI_TARGET" ∉ static_kinds)
  /\ ("OI_TARGET" ∉ dynamic_kinds).
Proof. repeat split; first [reflexivity | by_decide]. Qed.

(** C4, as amended.  The kind list has nine kinds and the target list is
    not one of them.  The static mask splits the list into the four
    static kinds followed by the five dynamic kinds: every kind of the
    list is in exactly one part, the parts are disjoint, and together
    they are the whole list. *)
Theorem kind_list_partition :
  length NIFITS_EXTENSIONS = 9%nat
  /\ length STATIC_EXTENSIONS = length NIFITS_EXTENSIONS
  /\ ("OI_TARGET" ∉ NIFITS_EXTENSIONS)
  /\ extension_list true false = Return static_kinds
  /\ extension_list false true = Return dynamic_kinds
  /\ Forall (fun k => (k ∈ static_kinds /\ k ∉ dynamic_kinds)
                      \/ (k ∈ dynamic_kinds /\ k ∉ static_kinds)) NIFITS_EXTENSIONS
  /\ Forall (fun k => k ∉ dynamic_kinds) static_kinds
  /\ static_kinds ++ dynamic_kinds = NIFITS_EXTENSIONS
  /\ NoDup NIFITS_EXTENSIONS.
Proof. repeat split; first [reflexivity | by_decide]. Qed.

(** ** The target list *)

Lemma convert_row_target (coerce : dtype -> cell -> py cell) (a : target_args) :
  convert_row coerce OI_TARGET_dtype (target_vals a) =
    if int64_ok (target_id a) then Return (stored_row a) else Raise ValueError.
Proof.
  unfold OI_TARGET_dtype, target_vals, stored_row. cbn [convert_row convert].
  destruct (int64_ok (target_id a)); reflexivity.
Qed.

Lemma add_target_schema (coerce : dtype -> cell -> py cell)
    (self : NI_EXTENSION) (a : target_args) :
  n_cols (data_table self) = 18%nat ->
  dtypes (data_table self) = OI_TARGET_dtype ->
  add_target coerce self a =
    if int64_ok (target_id a)
    then Return (set_data_table self
                   (mkTable (colnames (data_table self)) (dtypes (data_table self))
                            (rows (data_table self) ++ [stored_row a])))
    else Raise ValueError.
Proof.
  unfold n_cols, add_target, add_row. intros Hcols Hdt.
  rewrite Hcols. cbn [length target_vals Nat.eqb].
  rewrite Hdt at 1. rewrite convert_row_target.
  destruct (int64_ok (target_id a)); reflexivity.
Qed.

Lemma add_targets_appends (coerce : dtype -> cell -> py cell)
    (calls : list target_args) (self : NI_EXTENSION) :
  n_cols (data_table self) = 18%nat ->
  dtypes (data_table self) = OI_TARGET_dtype ->
  Forall (fun c => int64_ok (target_id c) = true) calls ->
  add_targets coerce self calls =
    Return (set_data_table self
              (mkTable (colnames (data_table self)) (dtypes (data_table self))
                       (rows (data_table self) ++ (stored_row <$> calls)))).
Proof.
  unfold add_targets. intros Hcols Hdt Hcalls. revert self Hcols Hdt.
  induction Hcalls as [|a calls Ha _ IH]; intros self Hcols Hdt;
    cbn [for_each fmap list_fmap].
  - rewrite app_nil_r. destruct self as [c [n d r] h da]. reflexivity.
  - rewrite (add_target_schema coerce self a Hcols Hdt), Ha, bind_Return, IH
      by (first [exact Hcols | exact Hdt]).
    cbn. rewrite <- app_assoc. reflexivity.
Qed.

(** C8 as stated fails: a call whose identifier does not fit the 64-bit
    integer column raises [ValueError] and appends nothing, here with the
    identifier 2^63 on the table of [from_scratch]. *)
Lemma add_target_identifier_out_of_range :
  int64_ok (2 ^ 63) = false
  /\ add_target Sample.no_coercion from_scratch (with_target_id (2 ^ 63) default_target)
     = Raise ValueError
  /\ raises (add_target Sample.no_coercion from_scratch default_target) = false.
Proof. repeat split; reflexivity. Qed.

(** C8, as amended.  [from_scratch] holds an empty table with the
    eighteen named and typed columns.  Any sequence of [add_target] calls
    whose identifiers fit a signed 64-bit integer succeeds on it, and the
    table then holds exactly one row per call, in call order; each such
    call appends exactly one row, which holds the values passed (a string
    without the NUL characters it ends with), and leaves the columns as
    they are.  A call with the identifier of an earlier one appends its
    row all the same, so two rows then bear one identifier.  A call whose
    identifier does not fit raises [ValueError].  The values of a call
    are of the kinds of their columns, so none of this depends on
    [coerce]. *)
Theorem OI_TARGET_from_scratch_add_target
    (coerce : dtype -> cell -> py cell) (calls : list target_args) (a : target_args) :
  Forall (fun c => int64_ok (target_id c) = true) calls ->
  int64_ok (target_id a) = true ->
  class_of from_scratch = OI_TARGET
  /\ rows (data_table from_scratch) = []
  /\ zip (colnames (data_table from_scratch)) (dtypes (data_table from_scratch)) =
       [("TARGET_ID", dt_int); ("TARGET", dt_str); ("RAEP0", dt_float);
        ("DECEP0", dt_float); ("EQUINOX", dt_float); ("RA_ERR", dt_float);
        ("DEC_ERR", dt_float); ("SYSVEL", dt_float); ("VELTYP", dt_str);
        ("VELDEF", dt_str); ("PMRA", dt_float); ("PMDEC", dt_float);
        ("PMRA_ERR", dt_float); ("PMDEC_ERR", dt_float); ("PARALLAX", dt_float);
        ("PARA_ERR", dt_float); ("SPECTYP", dt_str); ("CATEGORY", dt_str)]
  /\ length (colnames (data_table from_scratch)) = 18%nat
  /\ length (dtypes (data_table from_scratch)) = 18%nat
  /\ (exists before after,
        add_targets coerce from_scratch calls = Return before
        /\ add_target coerce before a = Return after
        /\ class_of after = OI_TARGET
        /\ colnames (data_table after) = OI_TARGET_names
        /\ dtypes (data_table after) = OI_TARGET_dtype
        /\ n_rows (data_table before) = length calls
        /\ rows (data_table before) = stored_row <$> calls
        /\ rows (data_table after) =
             rows (data_table before)
             ++ [[CInt (target_id a); CStr (rstrip_nul (target a));
                  CFloat (raep0 a); CFloat (decep0 a);
                  CFloat (equinox a); CFloat (ra_err a); CFloat (dec_err a);
                  CFloat (sysvel a);
                  CStr (rstrip_nul (veltyp a)); CStr (rstrip_nul (veldef a));
                  CFloat (pmra a); CFloat (pmdec a);
                  CFloat (pmra_err a); CFloat (pmdec_err a);
                  CFloat (parallax a); CFloat (para_err a);
                  CStr (rstrip_nul (spectyp a)); CStr (rstrip_nul (category a))]]
        /\ n_rows (data_table after) = S (n_rows (data_table before))
        /\ (forall b : target_args,
              exists again,
                add_target coerce after (with_target_id (target_id a) b) = Return again
                /\ rows (data_table again) =
                     rows (data_table after)
                     ++ [stored_row (with_target_id (target_id a) b)]
                /\ (head <$> drop (length calls) (rows (data_table again))) =
                     [Some (CInt (target_id a)); Some (CInt (target_id a))])
        /\ (forall (n : Z) (b : target_args),
              int64_ok n = false ->
              add_target coerce before (with_target_id n b) = Raise ValueError))
  /\ (forall b c : target_args,
        exists self,
          add_targets coerce from_scratch [with_target_id 0 b; with_target_id 0 c]
          = Return self
          /\ rows (data_table self) =
               [stored_row (with_target_id 0 b); stored_row (with_target_id 0 c)]
          /\ (head <$> rows (data_table self)) = [Some (CInt 0); Some (CInt 0)]).
Proof.
  intros Hcalls Ha.
  do 5 (split; [reflexivity |]). split.
  - rewrite (add_targets_appends coerce calls from_scratch eq_refl eq_refl Hcalls).
    eexists. eexists. split; [reflexivity |].
    rewrite add_target_schema, Ha by reflexivity.
    split; [reflexivity |]. cbn [set_data_table data_table class_of colnames dtypes rows
                                 from_scratch Table_of_schema app].
    unfold n_rows. cbn [rows]. rewrite !length_app, !length_fmap. cbn [length].
    do 6 (split; [first [reflexivity | lia] |]). split; [lia |]. split.
    + intros b. rewrite add_target_schema by reflexivity.
      cbn [with_target_id target_id]. rewrite Ha.
      eexists. split; [reflexivity |].
      cbn [set_data_table data_table rows]. split; [reflexivity |].
      rewrite <- !app_assoc.
      rewrite <- (length_fmap stored_row calls) at 1.
      rewrite drop_app_length. reflexivity.
    + intros n b Hn. rewrite add_target_schema by reflexivity.
      cbn [with_target_id target_id]. rewrite Hn. reflexivity.
  - intros b c.
    rewrite (add_targets_appends coerce _ from_scratch eq_refl eq_refl)
      by (repeat constructor).
    eexists. split; [reflexivity |]. split; reflexivity.
Qed.

Lemma OI_TARGET_from_scratch_add_target_witness :
  Forall (fun c => int64_ok (target_id c) = true) [default_target]
  /\ int64_ok (target_id (with_target_id 7 default_target)) = true
  /\ exists before after,
       add_targets Sample.no_coercion from_scratch [default_target] = Return before
       /\ add_target Sample.no_coercion before (with_target_id 7 default_target)
          = Return after
       /\ n_rows (data_table before) = 1%nat
       /\ n_rows (data_table after) = 2%nat.
Proof.
  split; [repeat constructor |]. split; [reflexivity |].
  destruct (OI_TARGET_from_scratch_add_target Sample.no_coercion [default_target]
              (with_target_id 7 default_target))
    as (_ & _ & _ & _ & _ & (before & after & H1 & H2 & _ & _ & _ & Hn & _ & _ & Hn' & _) & _).
  - repeat constructor.
  - reflexivity.
  - exists before, after. rewrite Hn' , Hn. repeat split; assumption.
Defined.

(** ** Encoding a table object *)

(** C9.  Encoding a table object succeeds and replaces the header the
    object holds by the header of the record it emits, in which the row
    and column counts are those of the table the object holds; the table
    itself is untouched and is the payload of the record.  An object that
    held an empty header holds a different one afterwards. *)
Theorem table_to_hdu_updates_header (self : NI_EXTENSION) :
  codec_of (class_of self) = TableCodec ->
  exists myhdu self',
    to_hdu self = Return (myhdu, self')
    /\ header self' = hdu_header myhdu
    /\ class_of self' = class_of self
    /\ data_table self' = data_table self
    /\ hdu_data_of myhdu = TableData (data_table self)
    /\ Some (HStr (hdu_name myhdu)) = HStr <$> class_name (class_of self)
    /\ header_get (header self') "NAXIS2"
       = Some (HInt (Z.of_nat (n_rows (data_table self))))
    /\ header_get (header self') "TFIELDS"
       = Some (HInt (Z.of_nat (n_cols (data_table self))))
    /\ header self' <> [].
Proof.
  destruct self as [c t h d]. cbn [class_of]. intros Hc.
  destruct c; try discriminate Hc;
    (do 2 eexists; split; [reflexivity |]; cbn; repeat split; discriminate).
Qed.

Lemma table_to_hdu_updates_header_witness :
  codec_of (class_of from_scratch) = TableCodec
  /\ exists myhdu self',
    to_hdu from_scratch = Return (myhdu, self')
    /\ header self' = hdu_header myhdu
    /\ class_of self' = class_of from_scratch
    /\ data_table self' = data_table from_scratch
    /\ hdu_data_of myhdu = TableData (data_table from_scratch)
    /\ Some (HStr (hdu_name myhdu)) = HStr <$> class_name (class_of from_scratch)
    /\ header_get (header self') "NAXIS2"
       = Some (HInt (Z.of_nat (n_rows (data_table from_scratch))))
    /\ header_get (header self') "TFIELDS"
       = Some (HInt (Z.of_nat (n_cols (data_table from_scratch))))
    /\ header self' <> [].
Proof.
  split; [reflexivity |].
  apply (table_to_hdu_updates_header from_scratch). reflexivity.
Defined.

(** ** Loading *)

Lemma load_step_decode (hdulist : list HDU) (obj_dict : gmap string pyval) (k : string) :
  load_step hdulist obj_dict k =
    if hdulist_contains hdulist k
    then theobj ← decode_kind hdulist k; Return (<[lower k := PyExt theobj]> obj_dict)
    else Return obj_dict.
Proof.
  unfold load_step, decode_kind.
  destruct (hdulist_contains hdulist k); [| reflexivity].
  destruct (getclass k); [| reflexivity]. cbn.
  destruct (hdulist_getitem hdulist k); reflexivity.
Qed.

Lemma load_loop_aborts (hdulist : list HDU) (pre post : list string) (k : string) (e : exn) :
  (forall k', k' ∈ pre -> hdulist_contains hdulist k' = true ->
              raises (decode_kind hdulist k') = false) ->
  hdulist_contains hdulist k = true ->
  decode_kind hdulist k = Raise e ->
  forall obj_dict, for_each (load_step hdulist) (pre ++ k :: post) obj_dict = Raise e.
Proof.
  intros Hpre Hk He. induction pre as [|k' pre IH]; intros obj_dict; cbn [app for_each].
  - rewrite load_step_decode, Hk, He. reflexivity.
  - rewrite load_step_decode.
    destruct (hdulist_contains hdulist k') eqn:Hc.
    + destruct (raises_false _ (Hpre k' (list_elem_of_here _ _) Hc)) as [o ->].
      cbn. apply IH. intros k'' Hin. apply Hpre. right. exact Hin.
    + cbn. apply IH. intros k'' Hin. apply Hpre. right. exact Hin.
Qed.

(** C2 as stated fails.  With a transfer matrix of shape (3, 1) in the
    source, the load raises the assertion error and returns no container:
    the field-of-view table of the same source is bound nowhere, while the
    load of the source without the transfer matrix binds it. *)
Lemma from_nifits_bad_catm_aborts_load :
  from_hdu NI_CATM Sample.bad_catm = Raise AssertionError
  /\ hdulist_contains Sample.bad_source "NI_FOV" = true
  /\ raises (decode_kind Sample.bad_source "NI_FOV") = false
  /\ from_nifits ∅ (Opened Sample.bad_source) = Raise AssertionError
  /\ (exists self theobj,
        from_nifits ∅ (Opened Sample.good_source) = Return self
        /\ getattr self "ni_fov" = Some (PyExt theobj)).
Proof.
  repeat split; try reflexivity.
  do 2 eexists. split; vm_compute; reflexivity.
Qed.

(** C2, as amended.  When the source has a primary record and the decode
    of a kind present in it raises, while the kinds before it in the kind
    list are absent or decode, the load as a whole raises that error: no
    container is returned, and no kind of the source ends up bound. *)
Theorem from_nifits_aborts_on_failed_decode
    (fs : storage) (hdulist : list HDU) (primary : HDU)
    (pre post : list string) (k : string) (e : exn) :
  NIFITS_EXTENSIONS = pre ++ k :: post ->
  hdulist_getitem hdulist "PRIMARY" = Return primary ->
  (forall k', k' ∈ pre -> hdulist_contains hdulist k' = true ->
              raises (decode_kind hdulist k') = false) ->
  hdulist_contains hdulist k = true ->
  decode_kind hdulist k = Raise e ->
  from_nifits fs (Opened hdulist) = Raise e.
Proof.
  intros Hlist Hprim Hpre Hk He. unfold from_nifits.
  rewrite bind_Return, Hprim, bind_Return, Hlist.
  rewrite (load_loop_aborts hdulist pre post k e Hpre Hk He). reflexivity.
Qed.

Lemma from_nifits_aborts_on_failed_decode_witness :
  (NIFITS_EXTENSIONS = ["OI_ARRAY"; "OI_WAVELENGTH"] ++ "NI_CATM" ::
                         ["NI_FOV"; "NI_KMAT"; "NI_MOD"; "NI_IOUT"; "NI_KIOUT"; "NI_KCOV"]
   /\ hdulist_getitem Sample.bad_source "PRIMARY" = Return Sample.primary
   /\ (forall k', k' ∈ ["OI_ARRAY"; "OI_WAVELENGTH"] ->
                  hdulist_contains Sample.bad_source k' = true ->
                  raises (decode_kind Sample.bad_source k') = false)
   /\ hdulist_contains Sample.bad_source "NI_CATM" = true
   /\ decode_kind Sample.bad_source "NI_CATM" = Raise AssertionError)
  /\ from_nifits ∅ (Opened Sample.bad_source) = Raise AssertionError.
Proof.
  assert (Hpre : forall k', k' ∈ ["OI_ARRAY"; "OI_WAVELENGTH"] ->
                   hdulist_contains Sample.bad_source k' = true ->
                   raises (decode_kind Sample.bad_source k') = false).
  { intros k' Hin. repeat (apply elem_of_cons in Hin as [-> | Hin]);
      [discriminate | discriminate | inversion Hin]. }
  split.
  - repeat split; first [reflexivity | exact Hpre].
  - apply (from_nifits_aborts_on_failed_decode ∅ Sample.bad_source Sample.primary
             ["OI_ARRAY"; "OI_WAVELENGTH"]
             ["NI_FOV"; "NI_KMAT"; "NI_MOD"; "NI_IOUT"; "NI_KIOUT"; "NI_KCOV"]
             "NI_CATM" AssertionError);
      first [reflexivity | exact Hpre].
Defined.

(** ** Headers and attributes *)

Lemma header_get_set_eq (h : Header) (k : string) (v : hvalue) :
  header_get (header_set h k v) k = Some v.
Proof.
  induction h as [|[kc vc cc] h IH]; cbn.
  - rewrite String.eqb_refl. reflexivity.
  - destruct (String.eqb_spec kc k) as [-> | Hne]; cbn.
    + rewrite String.eqb_refl. reflexivity.
    + apply String.eqb_neq in Hne. rewrite Hne. exact IH.
Qed.

Lemma header_get_set_ne (h : Header) (k k' : string) (v : hvalue) :
  k <> k' -> header_get (header_set h k v) k' = header_get h k'.
Proof.
  intros Hkk. induction h as [|[kc vc cc] h IH]; cbn.
  - apply String.eqb_neq in Hkk. rewrite Hkk. reflexivity.
  - destruct (String.eqb_spec kc k) as [-> | Hne]; cbn.
    + apply String.eqb_neq in Hkk. rewrite Hkk. reflexivity.
    + rewrite IH. reflexivity.
Qed.

Lemma getattr_setattr_ne (self : nifits) (n n' : string) (v : pyval) :
  n <> n' -> getattr (setattr self n v) n' = getattr self n'.
Proof.
  intros Hn. unfold getattr, setattr. cbn [dict].
  rewrite lookup_insert_ne by exact Hn. reflexivity.
Qed.

Lemma hasattr_setattr_ne (self : nifits) (n n' : string) (v : pyval) :
  n <> n' -> hasattr (setattr self n v) n' = hasattr self n'.
Proof. intros Hn. unfold hasattr. rewrite getattr_setattr_ne by exact Hn. reflexivity. Qed.

(** ** The loop of [to_nifits] *)

Lemma save_step_saveable (st : save_state) (k : string) :
  saveable (sv_self st) k ->
  exists st',
    save_step st k = Return st'
    /\ sv_header st' = header_set (sv_header st) k (flag_of (sv_self st) k)
    /\ (forall n, n <> lower k ->
                  getattr (sv_self st') n = getattr (sv_self st) n).
Proof.
  unfold saveable, save_step, flag_of. intros Hs.
  destruct (hasattr (sv_self st) (lower k)) eqn:Hh.
  - destruct (Hs eq_refl) as (theobj & -> & Hok).
    destruct (raises_false _ Hok) as [[thehdu theobj'] ->]. cbn.
    eexists. split; [reflexivity |]. cbn. split; [reflexivity |].
    intros n Hn. apply getattr_setattr_ne. congruence.
  - eexists. split; [reflexivity |]. cbn. split; [reflexivity |]. reflexivity.
Qed.

Lemma saveable_ext (self self' : nifits) (k : string) :
  getattr self' (lower k) = getattr self (lower k) ->
  saveable self k -> saveable self' k.
Proof. unfold saveable, hasattr. intros ->. exact id. Qed.

Lemma save_loop (l : list string) (st : save_state) :
  NoDup (lower <$> l) ->
  (forall k, k ∈ l -> saveable (sv_self st) k) ->
  exists st',
    for_each save_step l st = Return st'
    /\ (forall k, k ∈ l -> header_get (sv_header st') k = Some (flag_of (sv_self st) k))
    /\ (forall k, k ∉ l -> header_get (sv_header st') k = header_get (sv_header st) k).
Proof.
  revert st. induction l as [|k l IH]; intros st Hnd Hall; cbn [for_each].
  - eexists. split; [reflexivity |]. split; [| reflexivity].
    intros k Hk. inversion Hk.
  - cbn [fmap list_fmap] in Hnd. apply NoDup_cons in Hnd as [Hk Hnd].
    destruct (save_step_saveable st k (Hall k (list_elem_of_here _ _)))
      as (st1 & -> & Hhdr & Hattr).
    assert (Hother : forall k', k' ∈ l -> lower k' <> lower k).
    { intros k' Hin Heq. apply Hk. rewrite <- Heq. apply list_elem_of_fmap.
      exists k'. split; [reflexivity | exact Hin]. }
    destruct (IH st1 Hnd) as (st' & Hrun & Hin & Hout).
    { intros k' Hk'. apply (saveable_ext (sv_self st)).
      - apply Hattr, Hother, Hk'.
      - apply Hall. right. exact Hk'. }
    rewrite bind_Return. exists st'. split; [exact Hrun |]. split.
    + intros k' [Heq | Hk']%elem_of_cons.
      * subst k'. assert (Hnotin : k ∉ l).
        { intros Hin'. apply (Hother k Hin'). reflexivity. }
        rewrite (Hout k Hnotin), Hhdr. apply header_get_set_eq.
      * rewrite (Hin k' Hk'). unfold flag_of, hasattr.
        rewrite (Hattr (lower k') (Hother k' Hk')). reflexivity.
    + intros k' Hk'. apply not_elem_of_cons in Hk' as [Hne Hk'].
      rewrite (Hout k' Hk'), Hhdr. apply header_get_set_ne. congruence.
Qed.

Lemma extension_list_cases (static_only dynamic_only : bool) (kinds : list string) :
  extension_list static_only dynamic_only = Return kinds ->
  kinds = static_kinds \/ kinds = dynamic_kinds \/ kinds = NIFITS_EXTENSIONS.
Proof.
  destruct static_only, dynamic_only; intros [= <-]; auto.
Qed.

Lemma kinds_lower_NoDup (kinds : list string) :
  kinds = static_kinds \/ kinds = dynamic_kinds \/ kinds = NIFITS_EXTENSIONS ->
  NoDup (lower <$> kinds).
Proof. intros [-> | [-> | ->]]; by_decide. Qed.

Lemma PrimaryHDU_header_no_flag (k : string) :
  k ∈ NIFITS_EXTENSIONS -> header_get PrimaryHDU_header k = None.
Proof.
  intros Hk. repeat (apply elem_of_cons in Hk as [-> | Hk]); try reflexivity.
  inversion Hk.
Qed.

Lemma hasattr_false_getattr (self : nifits) (n : string) :
  hasattr self n = false -> getattr self n = None.
Proof.
  unfold hasattr. intros H. apply bool_decide_eq_false in H.
  destruct (getattr self n); [exfalso; apply H; eauto | reflexivity].
Qed.

Lemma encoded_ext (self self' : nifits) (k : string) :
  getattr self' (lower k) = getattr self (lower k) ->
  encoded self' k = encoded self k.
Proof. unfold encoded. intros ->. reflexivity. Qed.

Lemma omap_ext_in {A B} (f g : A -> option B) (l : list A) :
  (forall x, x ∈ l -> f x = g x) -> omap f l = omap g l.
Proof.
  induction l as [|x l IH]; intros H; cbn; [reflexivity |].
  rewrite (H x (list_elem_of_here _ _)), IH; [reflexivity |].
  intros y Hy. apply H. right. exact Hy.
Qed.

Lemma save_step_inv (st st1 : save_state) (k : string) :
  save_step st k = Return st1 ->
  saveable (sv_self st) k
  /\ sv_records st1 = sv_records st ++ option_list (fst <$> encoded (sv_self st) k)
  /\ (hasattr (sv_self st) (lower k) = true ->
      getattr (sv_self st1) (lower k)
      = (fun r => PyExt r.2) <$> encoded (sv_self st) k)
  /\ (forall n, n <> lower k -> getattr (sv_self st1) n = getattr (sv_self st) n).
Proof.
  unfold save_step, saveable, encoded.
  destruct (hasattr (sv_self st) (lower k)) eqn:Hh.
  - destruct (getattr (sv_self st) (lower k)) as [[|hd|theobj|]|]; try discriminate.
    destruct (to_hdu theobj) as [[thehdu theobj']|e] eqn:Henc; [| discriminate].
    cbn. intros [= <-]. cbn [sv_self sv_records]. repeat split.
    + intros _. exists theobj. rewrite Henc. split; reflexivity.
    + intros _. unfold getattr, setattr. cbn [dict].
      rewrite lookup_insert_eq. reflexivity.
    + intros n Hn. apply getattr_setattr_ne. congruence.
  - intros [= <-]. cbn [sv_self sv_records].
    rewrite (hasattr_false_getattr _ _ Hh). cbn. rewrite app_nil_r.
    repeat split; discriminate.
Qed.

Lemma save_loop_inv (l : list string) (st st' : save_state) :
  NoDup (lower <$> l) ->
  for_each save_step l st = Return st' ->
  (forall k, k ∈ l -> saveable (sv_self st) k)
  /\ sv_records st' = sv_records st ++ omap (fun k => fst <$> encoded (sv_self st) k) l
  /\ (forall k, k ∈ l -> hasattr (sv_self st) (lower k) = true ->
        getattr (sv_self st') (lower k)
        = (fun r => PyExt r.2) <$> encoded (sv_self st) k)
  /\ (forall n, n ∉ lower <$> l -> getattr (sv_self st') n = getattr (sv_self st) n).
Proof.
  revert st. induction l as [|k l IH]; intros st Hnd; cbn [for_each].
  - intros [= <-]. cbn. rewrite app_nil_r. repeat split; intros k Hk; inversion Hk.
  - cbn [fmap list_fmap] in Hnd. apply NoDup_cons in Hnd as [Hk Hnd].
    assert (Hother : forall k', k' ∈ l -> lower k' <> lower k).
    { intros k' Hin Heq. apply Hk. rewrite <- Heq. apply list_elem_of_fmap.
      exists k'. split; [reflexivity | exact Hin]. }
    destruct (save_step st k) as [st1|e] eqn:Hstep; [| discriminate].
    rewrite bind_Return. intros Hrun.
    destruct (save_step_inv st st1 k Hstep) as (Hsk & Hrec1 & Hset1 & Hfr1).
    destruct (IH st1 Hnd Hrun) as (Hsl & Hrec & Hset & Hfr).
    assert (Henc : forall k', k' ∈ l ->
              encoded (sv_self st1) k' = encoded (sv_self st) k').
    { intros k' Hk'. apply encoded_ext, Hfr1, Hother, Hk'. }
    split; [| split; [| split]].
    + intros k' [-> | Hk']%elem_of_cons; [exact Hsk |].
      apply (saveable_ext (sv_self st1)); [| apply Hsl, Hk'].
      symmetry. apply Hfr1, Hother, Hk'.
    + rewrite Hrec, Hrec1, <- app_assoc. f_equal. cbn [omap list_omap].
      rewrite (omap_ext_in (fun k => fst <$> encoded (sv_self st1) k)
                 (fun k => fst <$> encoded (sv_self st) k))
        by (intros k' Hk'; rewrite (Henc k' Hk'); reflexivity).
      destruct (encoded (sv_self st) k) as [[h o]|]; reflexivity.
    + intros k' [-> | Hk']%elem_of_cons Hh.
      * rewrite (Hfr _ Hk). apply Hset1, Hh.
      * rewrite <- (Henc k' Hk'). apply Hset; [exact Hk' |].
        unfold hasattr in *. rewrite (Hfr1 _ (Hother k' Hk')). exact Hh.
    + intros n [Hne Hn]%not_elem_of_cons. rewrite (Hfr n Hn). apply Hfr1, Hne.
Qed.

Lemma to_nifits_in_memory (self : nifits) (fs : storage) (filename static_hash : string)
    (static_only dynamic_only overwrite : bool) (kinds : list string) :
  extension_list static_only dynamic_only = Return kinds ->
  to_nifits self fs filename static_only dynamic_only static_hash false overwrite
  = (st ← for_each save_step kinds (mkSave self [] PrimaryHDU_header);
     Return (mkSaved (mkHDU "PRIMARY" (sv_header st) NoData :: sv_records st)
                     (sv_self st) fs)).
Proof. intros Hk. unfold to_nifits. rewrite Hk. reflexivity. Qed.

Lemma hasattr_declared (self : nifits) (k : string) :
  k ∈ NIFITS_EXTENSIONS -> k <> "OI_ARRAY" -> hasattr self (lower k) = true.
Proof.
  intros Hk Hne. unfold hasattr, getattr.
  destruct (dict self !! lower k) as [v|]; [apply bool_decide_eq_true_2; eauto |].
  repeat (apply elem_of_cons in Hk as [-> | Hk]);
    first [contradiction | vm_compute; reflexivity | inversion Hk].
Qed.

Lemma save_run_static (self : nifits) (st : save_state) :
  for_each save_step static_kinds (mkSave self [] PrimaryHDU_header) = Return st ->
  (forall k, k ∈ static_kinds -> saveable self k)
  /\ sv_records st = omap (fun k => fst <$> encoded self k) static_kinds
  /\ (forall k, k ∈ static_kinds -> header_get (sv_header st) k = Some (flag_of self k))
  /\ (forall k, k ∈ dynamic_kinds ->
        header_get (sv_header st) k = None
        /\ getattr (sv_self st) (lower k) = getattr self (lower k)).
Proof.
  intros Hrun.
  assert (Hnd : NoDup (lower <$> static_kinds)) by by_decide.
  destruct (save_loop_inv static_kinds _ st Hnd Hrun) as (Hsav & Hrec & _ & Hfr).
  cbn [sv_self sv_records app] in Hsav, Hrec, Hfr.
  destruct (save_loop static_kinds (mkSave self [] PrimaryHDU_header) Hnd Hsav)
    as (st' & Hrun' & Hin & Hout).
  rewrite Hrun in Hrun'. injection Hrun' as <-. cbn [sv_self sv_header] in Hin, Hout.
  split; [exact Hsav |]. split; [exact Hrec |]. split; [exact Hin |].
  intros k Hk. split.
  - rewrite Hout.
    + apply PrimaryHDU_header_no_flag.
      repeat (apply elem_of_cons in Hk as [-> | Hk]); first [by_decide | inversion Hk].
    + repeat (apply elem_of_cons in Hk as [-> | Hk]); first [by_decide | inversion Hk].
  - apply Hfr.
    repeat (apply elem_of_cons in Hk as [-> | Hk]); first [by_decide | inversion Hk].
Qed.

(** ** Saving *)

(** C1: the code at a container with an unpopulated slot.  The loop
    tests [hasattr] and has a branch for a kind that is missing, which
    flags it "Not included".  Every kind but the array geometry is a
    declared field of the container, so [hasattr] holds of it in every
    container, and when its slot holds [None] the step calls [to_hdu] on
    [None] and raises [AttributeError]; no step ever flags such a kind
    "Not included".  The container built with no argument has every slot
    at [None]: each of its saves raises [AttributeError], whatever the
    selection, written to a file or not.  The container with the three
    other static kinds populated and no array-geometry attribute is saved
    static-only, with the array geometry flagged "Not included" and no
    flag for the kinds that were not selected, but its full save raises
    [AttributeError] at the first dynamic kind. *)
Theorem to_nifits_None_slot_raises :
  (forall (self : nifits) (k : string),
      k ∈ NIFITS_EXTENSIONS -> k <> "OI_ARRAY" -> hasattr self (lower k) = true)
  /\ (forall (st : save_state) (k : string),
        k ∈ NIFITS_EXTENSIONS -> k <> "OI_ARRAY" ->
        getattr (sv_self st) (lower k) = Some PyNone ->
        save_step st k = Raise AttributeError)
  /\ (forall (st st' : save_state) (k : string),
        k ∈ NIFITS_EXTENSIONS -> k <> "OI_ARRAY" ->
        save_step st k = Return st' ->
        header_get (sv_header st') k = Some (HStr "Included"))
  /\ nifits_init ∅ = Return Sample.empty_container
  /\ Forall (fun k => getattr Sample.empty_container (lower k) = Some PyNone)
            ["OI_WAVELENGTH"; "NI_CATM"; "NI_FOV"; "NI_KMAT"; "NI_MOD"; "NI_IOUT";
             "NI_KIOUT"; "NI_KCOV"]
  /\ (forall (fs : storage) (filename static_hash : string)
             (static_only dynamic_only writefile overwrite : bool),
        to_nifits Sample.empty_container fs filename static_only dynamic_only
                  static_hash writefile overwrite
        = Raise AttributeError)
  /\ (exists s,
        to_nifits Sample.static_container ∅ "" true false "" false false = Return s
        /\ manifest_flag (hdulist_of s) "OI_ARRAY" = Some (HStr "Not included")
        /\ Forall (fun k => manifest_flag (hdulist_of s) k = Some (HStr "Included"))
                  ["OI_WAVELENGTH"; "NI_CATM"; "NI_FOV"]
        /\ Forall (fun k => manifest_flag (hdulist_of s) k = None)
                  ["NI_KMAT"; "NI_MOD"; "NI_IOUT"; "NI_KIOUT"; "NI_KCOV"])
  /\ getattr Sample.static_container "ni_kmat" = Some PyNone
  /\ (forall (fs : storage) (filename static_hash : string) (writefile overwrite : bool),
        to_nifits Sample.static_container fs filename false false
                  static_hash writefile overwrite
        = Raise AttributeError).
Proof.
  split; [exact hasattr_declared |]. split; [| split].
  - intros st k Hk Hne Hnone. unfold save_step.
    rewrite (hasattr_declared _ k Hk Hne), Hnone. reflexivity.
  - intros st st' k Hk Hne. unfold save_step.
    rewrite (hasattr_declared _ k Hk Hne).
    destruct (getattr (sv_self st) (lower k)) as [[|hd|theobj|]|]; try discriminate.
    destruct (to_hdu theobj) as [[thehdu theobj']|e]; [| discriminate].
    cbn. intros [= <-]. cbn [sv_header]. apply header_get_set_eq.
  - split; [vm_compute; reflexivity |].
    split; [repeat constructor |]. split; [| split; [| split]].
    + intros fs filename static_hash [] [] writefile overwrite; vm_compute; reflexivity.
    + eexists. split; [vm_compute; reflexivity |]. split; [reflexivity |].
      split; repeat constructor.
    + vm_compute. reflexivity.
    + intros fs filename static_hash writefile overwrite. vm_compute. reflexivity.
Qed.

(** C10.  With both [static_only] and [dynamic_only] set, the save goes
    through the four static kinds and nothing else, as with [static_only]
    alone.  It returns exactly when every static kind is [saveable] (and,
    if a file is written, the file can be written), whatever the slots of
    the dynamic kinds hold.  When it returns, the list holds the primary
    record followed by the records of the static kinds whose slot holds
    an object, in the order of the kind list; the primary header carries
    a flag for each static kind and none for a dynamic kind; and the
    slots of the dynamic kinds are as they were. *)
Theorem to_nifits_static_only_wins
    (self : nifits) (fs : storage) (filename static_hash : string)
    (writefile overwrite : bool) :
  extension_list true true = Return static_kinds
  /\ static_kinds = ["OI_ARRAY"; "OI_WAVELENGTH"; "NI_CATM"; "NI_FOV"]
  /\ to_nifits self fs filename true true static_hash writefile overwrite
     = to_nifits self fs filename true false static_hash writefile overwrite
  /\ ((exists s, to_nifits self fs filename true true static_hash writefile overwrite
                 = Return s)
      <-> (forall k, k ∈ static_kinds -> saveable self k)
          /\ (writefile = true ->
              filename <> "" /\ (overwrite = true \/ fs !! filename = None)))
  /\ (forall s,
        to_nifits self fs filename true true static_hash writefile overwrite = Return s ->
        (exists hdr,
            hdulist_of s
            = mkHDU "PRIMARY" hdr NoData
                :: omap (fun k => fst <$> encoded self k) static_kinds)
        /\ (forall k, k ∈ static_kinds ->
              manifest_flag (hdulist_of s) k =
                Some (HStr (if hasattr self (lower k) then "Included" else "Not included")))
        /\ (forall k, k ∈ dynamic_kinds ->
              manifest_flag (hdulist_of s) k = None
              /\ getattr (self_of s) (lower k) = getattr self (lower k))
        /\ storage_of s = if writefile then <[filename := hdulist_of s]> fs else fs).
Proof.
  split; [reflexivity |]. split; [reflexivity |]. split; [reflexivity |].
  unfold to_nifits. rewrite (extension_list_static true), bind_Return.
  assert (Hnd : NoDup (lower <$> static_kinds)) by by_decide.
  destruct (for_each save_step static_kinds (mkSave self [] PrimaryHDU_header))
    as [st|e] eqn:Hrun.
  - destruct (save_run_static self st Hrun) as (Hsav & Hrec & Hflag & Hdyn).
    rewrite bind_Return. split.
    + destruct writefile.
      * unfold writeto. destruct (String.eqb_spec filename "") as [-> | Hname].
        -- split; [intros [s [=]] | intros (_ & Hw); destruct (Hw eq_refl); congruence].
        -- destruct (fs !! filename) as [old|] eqn:Hold.
           ++ destruct overwrite.
              ** split; [intros _ | eexists; reflexivity].
                 split; [exact Hsav | intros _; split; [exact Hname | left; reflexivity]].
              ** split; [intros [s [=]] |].
                 intros (_ & Hw). destruct (Hw eq_refl) as (_ & [[=] | [=]]).
           ++ split; [intros _ | eexists; reflexivity].
              split; [exact Hsav | intros _; split; [exact Hname | right; reflexivity]].
      * split; [intros _ | eexists; reflexivity].
        split; [exact Hsav | discriminate].
    + intros s Hs.
      assert (Hl : hdulist_of s = mkHDU "PRIMARY" (sv_header st) NoData :: sv_records st
                   /\ self_of s = sv_self st
                   /\ storage_of s = if writefile then <[filename := hdulist_of s]> fs
                                     else fs).
      { destruct writefile; [| injection Hs as <-; repeat split].
        unfold writeto in Hs. destruct (String.eqb filename ""); [discriminate Hs |].
        destruct (fs !! filename); [destruct overwrite; [| discriminate Hs] |];
          injection Hs as <-; repeat split. }
      destruct Hl as (Hl & Hself & Hfs). rewrite Hl, Hself.
      cbn [manifest_flag hdu_header].
      split; [exists (sv_header st); rewrite Hrec; reflexivity |].
      split; [exact Hflag |]. split; [exact Hdyn |]. rewrite <- Hl. exact Hfs.
  - rewrite bind_Raise. split; [| intros s [=]]. split; [intros [s [=]] |].
    intros (Hsav & _).
    destruct (save_loop static_kinds (mkSave self [] PrimaryHDU_header) Hnd Hsav)
      as (st & Hrun' & _).
    rewrite Hrun in Hrun'. discriminate Hrun'.
Qed.

(** * Further properties of the code *)

(** ** Loops *)

Lemma for_each_ext {A S} (f g : S -> A -> py S) (l : list A) (s : S) :
  (forall s' a, a ∈ l -> f s' a = g s' a) ->
  for_each f l s = for_each g l s.
Proof.
  revert s. induction l as [|a l IH]; intros s Hfg; cbn [for_each]; [reflexivity |].
  rewrite (Hfg s a (list_elem_of_here _ _)).
  destruct (g s a) as [s1|e]; [| reflexivity]. cbn.
  apply IH. intros s' b Hb. apply Hfg. right. exact Hb.
Qed.

(** ** The loop of [from_nifits] *)

Lemma lower_kinds_NoDup : NoDup (lower <$> NIFITS_EXTENSIONS).
Proof. by_decide. Qed.

Lemma load_loop_spec (hdulist : list HDU) (l : list string) (d : gmap string pyval) :
  NoDup (lower <$> l) ->
  match for_each (load_step hdulist) l d with
  | Return d' =>
      (forall k, k ∈ l -> hdulist_contains hdulist k = true ->
                 raises (decode_kind hdulist k) = false)
      /\ (forall k, k ∈ l ->
            d' !! lower k =
              if hdulist_contains hdulist k then decoded hdulist k else d !! lower k)
      /\ (forall n, n ∉ lower <$> l -> d' !! n = d !! n)
  | Raise e =>
      exists k, k ∈ l /\ hdulist_contains hdulist k = true
                /\ decode_kind hdulist k = Raise e
  end.
Proof.
  revert d. induction l as [|k l IH]; intros d Hnd; cbn [for_each].
  - repeat split; intros k Hk; inversion Hk.
  - cbn [fmap list_fmap] in Hnd. apply NoDup_cons in Hnd as [Hk Hnd].
    assert (Hother : forall k', k' ∈ l -> lower k' <> lower k).
    { intros k' Hin Heq. apply Hk. rewrite <- Heq. apply list_elem_of_fmap.
      exists k'. split; [reflexivity | exact Hin]. }
    rewrite load_step_decode. unfold decoded.
    destruct (hdulist_contains hdulist k) eqn:Hc.
    + destruct (decode_kind hdulist k) as [o|e] eqn:Hdec; cbn.
      * specialize (IH (<[lower k := PyExt o]> d) Hnd).
        destruct (for_each (load_step hdulist) l (<[lower k := PyExt o]> d)) as [d'|e].
        -- destruct IH as (Hok & Hin & Hout). split; [| split].
           ++ intros k' [-> | Hk']%elem_of_cons Hc'; [rewrite Hdec; reflexivity |].
              apply Hok; assumption.
           ++ intros k' [-> | Hk']%elem_of_cons.
              ** rewrite (Hout _ Hk), Hc, Hdec. apply lookup_insert_eq.
              ** rewrite (Hin k' Hk').
                 rewrite lookup_insert_ne by (apply not_eq_sym, Hother, Hk').
                 reflexivity.
           ++ intros n [Hne Hn]%not_elem_of_cons. rewrite (Hout n Hn).
              apply lookup_insert_ne. congruence.
        -- destruct IH as (k' & Hk' & Hc' & He). exists k'.
           split; [right; exact Hk' | split; assumption].
      * exists k. split; [left | split; [exact Hc | exact Hdec]].
    + cbn. specialize (IH d Hnd).
      destruct (for_each (load_step hdulist) l d) as [d'|e].
      * destruct IH as (Hok & Hin & Hout). split; [| split].
        -- intros k' [-> | Hk']%elem_of_cons Hc'; [congruence |].
           apply Hok; assumption.
        -- intros k' [-> | Hk']%elem_of_cons.
           ++ rewrite (Hout _ Hk), Hc. reflexivity.
           ++ apply Hin, Hk'.
        -- intros n [Hne Hn]%not_elem_of_cons. apply Hout, Hn.
      * destruct IH as (k' & Hk' & Hc' & He). exists k'.
        split; [right; exact Hk' | split; assumption].
Qed.

(** ** The constructor of the container *)

Lemma class_attrs_defaults (n : string) :
  match (list_to_map ((fun f => (f, PyNone)) <$> nifits_fields) : gmap string pyval) !! n with
  | Some v => Some v
  | None => class_attrs !! n
  end = class_attrs !! n.
Proof.
  unfold class_attrs. rewrite list_to_map_app, lookup_union.
  generalize ((list_to_map ((fun f => (f, PyNone)) <$> nifits_fields)
                 : gmap string pyval) !! n).
  generalize ((list_to_map [("from_nifits", PyMethod); ("to_nifits", PyMethod)]
                 : gmap string pyval) !! n).
  intros [w|] [v|]; reflexivity.
Qed.

Lemma getattr_init (d : gmap string pyval) (n : string) :
  getattr (mkNifits (d ∪ list_to_map ((fun f => (f, PyNone)) <$> nifits_fields))) n
  = match d !! n with Some v => Some v | None => class_attrs !! n end.
Proof.
  unfold getattr. cbn [dict]. rewrite lookup_union.
  rewrite <- (class_attrs_defaults n).
  generalize ((list_to_map ((fun f => (f, PyNone)) <$> nifits_fields)
                 : gmap string pyval) !! n).
  destruct (d !! n) as [v|]; intros [w|]; reflexivity.
Qed.

Lemma nifits_init_accepts (d : gmap string pyval) :
  (forall n v, d !! n = Some v -> n ∈ nifits_fields) ->
  nifits_init d
  = Return (mkNifits (d ∪ list_to_map ((fun f => (f, PyNone)) <$> nifits_fields))).
Proof.
  intros H. unfold nifits_init. rewrite bool_decide_eq_true_2; [reflexivity |].
  intros n v Hn. exact (H n v Hn).
Qed.

Lemma nifits_init_refuses (d : gmap string pyval) (n : string) (v : pyval) :
  d !! n = Some v -> n ∉ nifits_fields -> nifits_init d = Raise TypeError.
Proof.
  intros Hn Hnot. unfold nifits_init. rewrite bool_decide_eq_false_2; [reflexivity |].
  intros H. apply Hnot. exact (H n v Hn).
Qed.

Lemma nifits_init_inv (d : gmap string pyval) (self : nifits) :
  nifits_init d = Return self ->
  (forall n v, d !! n = Some v -> n ∈ nifits_fields)
  /\ self = mkNifits (d ∪ list_to_map ((fun f => (f, PyNone)) <$> nifits_fields)).
Proof.
  unfold nifits_init. case_bool_decide as H; [| discriminate].
  intros [= <-]. split; [| reflexivity]. intros n v Hn. exact (H n v Hn).
Qed.

(** ** Loading *)

Lemma lower_kind_is_field (k : string) :
  k ∈ NIFITS_EXTENSIONS -> k <> "OI_ARRAY" -> lower k ∈ nifits_fields.
Proof.
  intros Hk Hne. repeat (apply elem_of_cons in Hk as [-> | Hk]);
    first [contradiction | by_decide | inversion Hk].
Qed.

Lemma decoded_is_Some (hdulist : list HDU) (k : string) :
  raises (decode_kind hdulist k) = false -> is_Some (decoded hdulist k).
Proof. unfold decoded. destruct (decode_kind hdulist k); [eauto | discriminate]. Qed.

(** What the dictionary holds when the loop of [from_nifits] is over. *)
Lemma loaded_dict_keys (hdulist : list HDU) (primary : HDU) (d' : gmap string pyval) :
  (forall k, k ∈ NIFITS_EXTENSIONS ->
     d' !! lower k =
       if hdulist_contains hdulist k then decoded hdulist k
       else ({[ "header" := PyHeader (hdu_header primary) ]} : gmap string pyval) !! lower k) ->
  (forall n, n ∉ lower <$> NIFITS_EXTENSIONS ->
     d' !! n = ({[ "header" := PyHeader (hdu_header primary) ]} : gmap string pyval) !! n) ->
  hdulist_contains hdulist "OI_ARRAY" = false ->
  forall n v, d' !! n = Some v -> n ∈ nifits_fields.
Proof.
  intros Hin Hout Harr n v Hn.
  destruct (decide (n ∈ lower <$> NIFITS_EXTENSIONS)) as [Hk | Hk].
  - apply list_elem_of_fmap in Hk as (k & -> & Hk).
    destruct (decide (k = "OI_ARRAY")) as [-> | Hne].
    + rewrite (Hin "OI_ARRAY" ltac:(by_decide)), Harr in Hn. discriminate Hn.
    + apply lower_kind_is_field; assumption.
  - rewrite (Hout n Hk) in Hn. apply lookup_singleton_Some in Hn as [<- _]. by_decide.
Qed.

Lemma load_succeeds_iff (fs : storage) (hdulist : list HDU) :
  (exists self, from_nifits fs (Opened hdulist) = Return self)
  <-> (exists primary, hdulist_getitem hdulist "PRIMARY" = Return primary)
      /\ hdulist_contains hdulist "OI_ARRAY" = false
      /\ (forall k, k ∈ NIFITS_EXTENSIONS -> hdulist_contains hdulist k = true ->
                    raises (decode_kind hdulist k) = false).
Proof.
  unfold from_nifits. rewrite bind_Return.
  destruct (hdulist_getitem hdulist "PRIMARY") as [primary|e]; cbn [mbind py_bind];
    [| split; [intros [self [=]] | intros [[p [=]] _]]].
  pose proof (load_loop_spec hdulist NIFITS_EXTENSIONS
                {[ "header" := PyHeader (hdu_header primary) ]} lower_kinds_NoDup) as Hloop.
  destruct (for_each (load_step hdulist) NIFITS_EXTENSIONS _) as [d'|e].
  - destruct Hloop as (Hok & Hin & Hout). split.
    + intros [self Hself]. apply nifits_init_inv in Hself as [Hkeys _].
      split; [eauto |]. split; [| exact Hok].
      destruct (hdulist_contains hdulist "OI_ARRAY") eqn:Harr; [| reflexivity].
      exfalso.
      destruct (decoded_is_Some hdulist "OI_ARRAY"
                  (Hok "OI_ARRAY" ltac:(by_decide) Harr)) as [v Hv].
      specialize (Hin "OI_ARRAY" ltac:(by_decide)). rewrite Harr, Hv in Hin.
      apply Hkeys in Hin. revert Hin. by_decide.
    + intros (_ & Harr & _). eexists. apply nifits_init_accepts.
      apply (loaded_dict_keys hdulist primary d' Hin Hout Harr).
  - destruct Hloop as (k & Hk & Hc & He). split.
    + intros [self [=]].
    + intros (_ & _ & Hok). specialize (Hok k Hk Hc). rewrite He in Hok. discriminate Hok.
Qed.

Lemma hdulist_getitem_PRIMARY (hdulist : list HDU) :
  hdulist_getitem hdulist "PRIMARY" =
    match hdulist with
    | first :: _ => Return first
    | [] => Raise KeyError
    end.
Proof. destruct hdulist; reflexivity. Qed.

(** X1.  A load from an opened record list returns a container exactly
    when the list has a first record (it is the one taken as primary,
    whatever its name), has no record named as the array geometry, and
    every kind present in it decodes. *)
Theorem from_nifits_succeeds_iff (fs : storage) (hdulist : list HDU) :
  (exists self, from_nifits fs (Opened hdulist) = Return self)
  <-> hdulist <> []
      /\ hdulist_contains hdulist "OI_ARRAY" = false
      /\ (forall k, k ∈ NIFITS_EXTENSIONS -> hdulist_contains hdulist k = true ->
                    raises (decode_kind hdulist k) = false).
Proof.
  rewrite load_succeeds_iff, hdulist_getitem_PRIMARY.
  destruct hdulist as [|first rest].
  - split; [intros [[p [=]] _] | intros [H _]; contradiction].
  - split; (intros [_ H]; split; [first [discriminate | eauto] | exact H]).
Qed.

Lemma load_binds (fs : storage) (hdulist : list HDU) (self : nifits) :
  from_nifits fs (Opened hdulist) = Return self ->
  (exists primary,
      hdulist_getitem hdulist "PRIMARY" = Return primary
      /\ getattr self "header" = Some (PyHeader (hdu_header primary)))
  /\ getattr self "oi_array" = None
  /\ getattr self "oi_target" = Some PyNone
  /\ (forall k, k ∈ NIFITS_EXTENSIONS -> k <> "OI_ARRAY" ->
        getattr self (lower k) =
          if hdulist_contains hdulist k then decoded hdulist k else Some PyNone).
Proof.
  intros Hload.
  assert (Hex : exists self, from_nifits fs (Opened hdulist) = Return self) by eauto.
  apply load_succeeds_iff in Hex as (_ & Harr & Hdec).
  revert Hload. unfold from_nifits. rewrite bind_Return.
  destruct (hdulist_getitem hdulist "PRIMARY") as [primary|e]; cbn [mbind py_bind];
    [| discriminate].
  pose proof (load_loop_spec hdulist NIFITS_EXTENSIONS
                {[ "header" := PyHeader (hdu_header primary) ]} lower_kinds_NoDup) as Hloop.
  destruct (for_each (load_step hdulist) NIFITS_EXTENSIONS _) as [d'|e]; [| discriminate].
  destruct Hloop as (_ & Hin & Hout).
  intros [_ ->]%nifits_init_inv. split; [| split; [| split]].
  - exists primary. split; [reflexivity |].
    rewrite getattr_init, (Hout "header") by by_decide. reflexivity.
  - pose proof (Hin "OI_ARRAY" ltac:(by_decide)) as H.
    change (lower "OI_ARRAY") with "oi_array" in H.
    rewrite getattr_init, H, Harr. reflexivity.
  - rewrite getattr_init, (Hout "oi_target") by by_decide. reflexivity.
  - intros k Hk Hne. rewrite getattr_init, (Hin k Hk).
    destruct (hdulist_contains hdulist k) eqn:Hc.
    + destruct (decoded_is_Some hdulist k (Hdec k Hk Hc)) as [v ->]. reflexivity.
    + repeat (apply elem_of_cons in Hk as [-> | Hk]);
        first [contradiction | reflexivity | inversion Hk].
Qed.

(** X2.  The container a load returns keeps the header of the first
    record of the source, has no attribute for the array geometry, leaves
    the target list at [None] whatever the source holds, binds under the
    lower-case name of every other kind the object decoded from the
    first record of that name, and leaves the kinds without a record at
    [None]. *)
Theorem from_nifits_binds (fs : storage) (hdulist : list HDU) (self : nifits) :
  from_nifits fs (Opened hdulist) = Return self ->
  (exists first rest,
      hdulist = first :: rest
      /\ getattr self "header" = Some (PyHeader (hdu_header first)))
  /\ getattr self "oi_array" = None
  /\ getattr self "oi_target" = Some PyNone
  /\ (forall k, k ∈ NIFITS_EXTENSIONS -> k <> "OI_ARRAY" ->
        getattr self (lower k) =
          if hdulist_contains hdulist k then decoded hdulist k else Some PyNone).
Proof.
  intros Hload. destruct (load_binds fs hdulist self Hload) as ((p & Hp & Hh) & H).
  split; [| exact H]. rewrite hdulist_getitem_PRIMARY in Hp.
  destruct hdulist as [|first rest]; [discriminate Hp |].
  injection Hp as <-. eauto.
Qed.

Lemma from_nifits_binds_witness :
  exists self,
    from_nifits ∅ (Opened Sample.good_source) = Return self
    /\ (exists first rest,
          Sample.good_source = first :: rest
          /\ getattr self "header" = Some (PyHeader (hdu_header first)))
    /\ getattr self "oi_array" = None
    /\ getattr self "oi_target" = Some PyNone
    /\ (forall k, k ∈ NIFITS_EXTENSIONS -> k <> "OI_ARRAY" ->
          getattr self (lower k) =
            if hdulist_contains Sample.good_source k
            then decoded Sample.good_source k else Some PyNone).
Proof.
  eexists. split; [vm_compute; reflexivity |].
  apply (from_nifits_binds ∅ Sample.good_source). vm_compute. reflexivity.
Defined.

(** X3.  When the source has an array-geometry record, a primary record
    and only kinds that decode, the load raises [TypeError]: the
    constructor of the container has no field for the array geometry. *)
Theorem from_nifits_array_geometry_TypeError
    (fs : storage) (hdulist : list HDU) (primary : HDU) :
  hdulist_getitem hdulist "PRIMARY" = Return primary ->
  hdulist_contains hdulist "OI_ARRAY" = true ->
  (forall k, k ∈ NIFITS_EXTENSIONS -> hdulist_contains hdulist k = true ->
             raises (decode_kind hdulist k) = false) ->
  from_nifits fs (Opened hdulist) = Raise TypeError.
Proof.
  intros Hprim Harr Hdec. unfold from_nifits. rewrite bind_Return, Hprim, bind_Return.
  pose proof (load_loop_spec hdulist NIFITS_EXTENSIONS
                {[ "header" := PyHeader (hdu_header primary) ]} lower_kinds_NoDup) as Hloop.
  destruct (for_each (load_step hdulist) NIFITS_EXTENSIONS _) as [d'|e].
  - destruct Hloop as (_ & Hin & _). rewrite bind_Return.
    destruct (decoded_is_Some hdulist "OI_ARRAY"
                (Hdec "OI_ARRAY" ltac:(by_decide) Harr)) as [v Hv].
    specialize (Hin "OI_ARRAY" ltac:(by_decide)). rewrite Harr, Hv in Hin.
    apply (nifits_init_refuses d' _ v Hin). by_decide.
  - destruct Hloop as (k & Hk & Hc & He). specialize (Hdec k Hk Hc).
    rewrite He in Hdec. discriminate Hdec.
Qed.

Lemma from_nifits_array_geometry_TypeError_witness :
  (hdulist_getitem Sample.array_source "PRIMARY" = Return Sample.primary
   /\ hdulist_contains Sample.array_source "OI_ARRAY" = true
   /\ (forall k, k ∈ NIFITS_EXTENSIONS -> hdulist_contains Sample.array_source k = true ->
                 raises (decode_kind Sample.array_source k) = false))
  /\ from_nifits ∅ (Opened Sample.array_source) = Raise TypeError.
Proof.
  assert (Hdec : forall k, k ∈ NIFITS_EXTENSIONS ->
                   hdulist_contains Sample.array_source k = true ->
                   raises (decode_kind Sample.array_source k) = false).
  { intros k Hk. repeat (apply elem_of_cons in Hk as [-> | Hk]);
      first [reflexivity | discriminate | inversion Hk]. }
  split; [repeat split; first [reflexivity | exact Hdec] |].
  apply (from_nifits_array_geometry_TypeError ∅ Sample.array_source Sample.primary);
    first [reflexivity | exact Hdec].
Defined.

(** X4.  For every container a load returns, the file-information loop
    of the viewer collects the same eight kinds, every kind but the array
    geometry, whether or not the source held them. *)
Theorem viewer_lists_every_field (fs : storage) (hdulist : list HDU) (self : nifits) :
  from_nifits fs (Opened hdulist) = Return self ->
  exitsting_extensions self =
    ["OI_WAVELENGTH"; "NI_CATM"; "NI_FOV"; "NI_KMAT"; "NI_MOD"; "NI_IOUT";
     "NI_KIOUT"; "NI_KCOV"].
Proof.
  intros Hload. destruct (load_binds fs hdulist self Hload) as (_ & Harr & _ & Hk).
  assert (Hhas : forall k, k ∈ NIFITS_EXTENSIONS -> k <> "OI_ARRAY" ->
                           hasattr self (lower k) = true).
  { intros k Hin Hne. unfold hasattr. rewrite (Hk k Hin Hne).
    assert (Hex : exists self, from_nifits fs (Opened hdulist) = Return self) by eauto.
    apply load_succeeds_iff in Hex as (_ & _ & Hdec).
    destruct (hdulist_contains hdulist k) eqn:Hc.
    - apply bool_decide_eq_true_2, decoded_is_Some, Hdec; assumption.
    - reflexivity. }
  assert (H0 : hasattr self (lower "OI_ARRAY") = false).
  { unfold hasattr. change (lower "OI_ARRAY") with "oi_array". rewrite Harr.
    apply bool_decide_eq_false_2. intros [v [=]]. }
  unfold exitsting_extensions, NIFITS_EXTENSIONS. cbn [foldl].
  rewrite H0, !Hhas by first [by_decide | discriminate]. reflexivity.
Qed.

Lemma viewer_lists_every_field_witness :
  exists self,
    from_nifits ∅ (Opened Sample.good_source) = Return self
    /\ exitsting_extensions self =
         ["OI_WAVELENGTH"; "NI_CATM"; "NI_FOV"; "NI_KMAT"; "NI_MOD"; "NI_IOUT";
          "NI_KIOUT"; "NI_KCOV"].
Proof.
  eexists. split; [vm_compute; reflexivity |].
  apply (viewer_lists_every_field ∅ Sample.good_source). vm_compute. reflexivity.
Defined.

(** ** What a load reads of the record list *)

Lemma kind_not_PRIMARY (k : string) :
  k ∈ NIFITS_EXTENSIONS -> String.eqb k "PRIMARY" = false.
Proof.
  intros Hk. repeat (apply elem_of_cons in Hk as [-> | Hk]); try reflexivity.
  inversion Hk.
Qed.

Lemma hdulist_find_kind (hdulist : list HDU) (k : string) :
  k ∈ NIFITS_EXTENSIONS -> hdulist_find hdulist k = find (named k) hdulist.
Proof. intros Hk. unfold hdulist_find. rewrite (kind_not_PRIMARY k Hk). reflexivity. Qed.

Lemma from_nifits_find_ext (fs : storage) (hdulist hdulist' : list HDU) :
  head hdulist = head hdulist' ->
  (forall k, k ∈ NIFITS_EXTENSIONS -> find (named k) hdulist = find (named k) hdulist') ->
  from_nifits fs (Opened hdulist) = from_nifits fs (Opened hdulist').
Proof.
  intros Hhead Hfind.
  assert (Hf : forall k, k ∈ NIFITS_EXTENSIONS ->
                 hdulist_find hdulist k = hdulist_find hdulist' k).
  { intros k Hk. rewrite !hdulist_find_kind by exact Hk. apply Hfind, Hk. }
  assert (Hprim : hdulist_getitem hdulist "PRIMARY" = hdulist_getitem hdulist' "PRIMARY").
  { unfold hdulist_getitem, hdulist_find.
    change (String.eqb "PRIMARY" "PRIMARY") with true. cbv iota.
    rewrite Hhead. reflexivity. }
  unfold from_nifits. rewrite !bind_Return, Hprim.
  destruct (hdulist_getitem hdulist' "PRIMARY") as [primary|]; [| reflexivity].
  cbn [mbind py_bind].
  rewrite (for_each_ext (load_step hdulist) (load_step hdulist')); [reflexivity |].
  intros d k Hk. unfold load_step, hdulist_contains, hdulist_getitem.
  rewrite (Hf k Hk). reflexivity.
Qed.

Lemma find_name_insert (l1 l2 : list HDU) (x : HDU) (k : string) :
  hdu_name x <> k ->
  find (named k) (l1 ++ x :: l2) = find (named k) (l1 ++ l2).
Proof.
  intros Hne. unfold named. induction l1 as [|h l1 IH]; cbn.
  - apply String.eqb_neq in Hne. rewrite Hne. reflexivity.
  - destruct (String.eqb (hdu_name h) k); [reflexivity | exact IH].
Qed.

Lemma find_name_Permutation (l l' : list HDU) (k : string) :
  l ≡ₚ l' ->
  NoDup (hdu_name <$> l) ->
  find (named k) l = find (named k) l'.
Proof.
  unfold named.
  induction 1 as [|x l l' Hp IH|x y l|l l' l'' Hp1 IH1 Hp2 IH2]; intros Hnd.
  - reflexivity.
  - cbn. cbn in Hnd. apply NoDup_cons in Hnd as [_ Hnd].
    rewrite (IH Hnd). reflexivity.
  - cbn. cbn in Hnd. apply NoDup_cons in Hnd as [Hy _].
    destruct (String.eqb_spec (hdu_name x) k) as [Hx | _];
      destruct (String.eqb_spec (hdu_name y) k) as [Hy' | _]; try reflexivity.
    exfalso. apply Hy. rewrite Hy', <- Hx. left.
  - rewrite (IH1 Hnd). apply IH2. rewrite <- Hp1. exact Hnd.
Qed.

(** X5.  A record that is not the first of the source and whose name is
    no kind of the list has no effect on a load, wherever it stands
    after the first record. *)
Theorem from_nifits_ignores_other_records
    (fs : storage) (first : HDU) (l1 l2 : list HDU) (x : HDU) :
  hdu_name x ∉ NIFITS_EXTENSIONS ->
  from_nifits fs (Opened (first :: l1 ++ x :: l2))
  = from_nifits fs (Opened (first :: l1 ++ l2)).
Proof.
  intros Hx. apply from_nifits_find_ext; [reflexivity |].
  intros k Hk. apply (find_name_insert (first :: l1) l2 x k).
  intros Heq. apply Hx. rewrite Heq. exact Hk.
Qed.

Lemma from_nifits_ignores_other_records_witness :
  (hdu_name Sample.history ∉ NIFITS_EXTENSIONS)
  /\ from_nifits ∅ (Opened (Sample.primary :: [Sample.catm_record]
                              ++ Sample.history :: [Sample.fov_table]))
     = from_nifits ∅ (Opened (Sample.primary :: [Sample.catm_record]
                                ++ [Sample.fov_table])).
Proof.
  assert (H : hdu_name Sample.history ∉ NIFITS_EXTENSIONS) by by_decide.
  split; [exact H |].
  apply (from_nifits_ignores_other_records ∅ Sample.primary [Sample.catm_record]
           [Sample.fov_table] Sample.history H).
Defined.

(** X6.  When the records of the source have distinct names, the order
    of the records after the first one has no effect on a load. *)
Theorem from_nifits_order_of_records
    (fs : storage) (first : HDU) (l l' : list HDU) :
  NoDup (hdu_name <$> first :: l) ->
  l ≡ₚ l' ->
  from_nifits fs (Opened (first :: l)) = from_nifits fs (Opened (first :: l')).
Proof.
  intros Hnd Hp. apply from_nifits_find_ext; [reflexivity |]. intros k _.
  apply find_name_Permutation; [constructor; exact Hp | exact Hnd].
Qed.

Lemma from_nifits_order_of_records_witness :
  (NoDup (hdu_name <$> Sample.primary :: Sample.two_kinds)
   /\ Sample.two_kinds ≡ₚ Sample.two_kinds_swapped)
  /\ from_nifits ∅ (Opened (Sample.primary :: Sample.two_kinds))
     = from_nifits ∅ (Opened (Sample.primary :: Sample.two_kinds_swapped)).
Proof.
  assert (Hnd : NoDup (hdu_name <$> Sample.primary :: Sample.two_kinds)) by by_decide.
  assert (Hp : Sample.two_kinds ≡ₚ Sample.two_kinds_swapped) by apply perm_swap.
  split; [split; assumption |].
  apply (from_nifits_order_of_records ∅ Sample.primary _ _ Hnd Hp).
Defined.

(** ** Outcomes of the codecs *)

Lemma from_hdu_keeps (c : ext_class) (hdu : HDU) (theobj : NI_EXTENSION) :
  from_hdu c hdu = Return theobj ->
  class_of theobj = c /\ header theobj = hdu_header hdu.
Proof.
  destruct hdu as [n h d]. unfold from_hdu. cbn [hdu_data_of hdu_header].
  destruct (codec_of c).
  - destruct (Table_of_data d); cbn; [intros [= <-]; split; reflexivity | discriminate].
  - intros [= <-]. split; reflexivity.
  - destruct d as [|t|[[|k sh] xs]].
    + discriminate.
    + unfold cpx_from_hdu. cbn [hdu_data_of].
      destruct (n_rows t =? 2)%nat; discriminate.
    + discriminate.
    + destruct (Nat.eqb_spec k 2) as [-> | Hne].
      * rewrite cpx_from_hdu_planes. intros [= <-]. split; reflexivity.
      * unfold cpx_from_hdu. cbn [hdu_data_of shape].
        apply Nat.eqb_neq in Hne. rewrite Hne. discriminate.
Qed.

(** X7.  A decode keeps the class asked for and the header of the
    record.  Decoding a table kind raises only on a payload array without
    axes; decoding a real-array kind never raises, whatever the payload,
    and keeps the payload as it is; decoding the complex-array kind
    succeeds exactly on a payload array whose leading axis has length 2. *)
Theorem from_hdu_outcomes (c : ext_class) (hdu : HDU) :
  (forall theobj, from_hdu c hdu = Return theobj ->
                  class_of theobj = c /\ header theobj = hdu_header hdu)
  /\ match codec_of c with
     | TableCodec =>
         raises (from_hdu c hdu) =
           match hdu_data_of hdu with
           | ImageData (NdArray [] _) => true
           | _ => false
           end
     | ArrayCodec =>
         exists theobj, from_hdu c hdu = Return theobj
                        /\ data_array theobj = array_value_of_data (hdu_data_of hdu)
     | CpxArrayCodec =>
         raises (from_hdu c hdu) =
           match hdu_data_of hdu with
           | ImageData (NdArray (2%nat :: _) _) => false
           | _ => true
           end
     end.
Proof.
  split; [intros theobj; apply from_hdu_keeps |].
  destruct hdu as [n h d]. unfold from_hdu. cbn [hdu_data_of hdu_header].
  destruct (codec_of c).
  - destruct d as [|t|[[|k [|m sh]] xs]]; try reflexivity;
      cbn [Table_of_data Table_of_ndarray shape].
    + destruct (k =? 0)%nat; reflexivity.
    + destruct (m =? 0)%nat; reflexivity.
  - eexists. split; reflexivity.
  - destruct d as [|t|[[|k sh] xs]].
    + reflexivity.
    + unfold cpx_from_hdu. cbn [hdu_data_of].
      destruct (n_rows t =? 2)%nat; reflexivity.
    + reflexivity.
    + destruct (Nat.eqb_spec k 2) as [-> | Hne].
      * rewrite cpx_from_hdu_planes. reflexivity.
      * unfold cpx_from_hdu. cbn [hdu_data_of shape].
        apply Nat.eqb_neq in Hne as Hne'. rewrite Hne'.
        destruct k as [|[|[|k]]]; try reflexivity. contradiction.
Qed.

Lemma to_hdu_keeps (self self' : NI_EXTENSION) (myhdu : HDU) :
  to_hdu self = Return (myhdu, self') ->
  header self' = hdu_header myhdu
  /\ class_of self' = class_of self
  /\ data_table self' = data_table self
  /\ data_array self' = data_array self
  /\ class_name (class_of self) = Some (hdu_name myhdu)
  /\ header_get (hdu_header myhdu) "EXTNAME" = Some (HStr (hdu_name myhdu)).
Proof.
  destruct self as [c t h d]. unfold to_hdu. cbn [class_of data_array data_table header].
  destruct c; cbn [codec_of get_name class_name mbind py_bind]; try discriminate;
    try (intros [= <- <-]; cbn;
         repeat split; apply header_get_set_eq);
    destruct d;
    try match goal with |- context [rec_planes ?t] => destruct (rec_planes t) end;
    cbn; try discriminate;
    intros [= <- <-]; cbn; repeat split; apply header_get_set_eq.
Qed.

Lemma to_hdu_NI_KCOV (self : NI_EXTENSION) :
  class_of self = NI_KCOV -> to_hdu self = Raise AttributeError.
Proof.
  destruct self as [c t h d]. cbn [class_of]. intros ->. destruct d; reflexivity.
Qed.

(** X8.  An encode changes nothing of the object but its header, which
    becomes the header of the record; the record is named after the
    class.  Every object of a table kind encodes.  No object of the
    output-covariance class encodes: the class has no [name].  A
    kernel-matrix object encodes unless its payload is a table or
    complex.  A transfer-matrix object whose payload is a complex or a
    real array, or the rows of a table with a single float column,
    encodes; one whose payload is missing raises [AttributeError]. *)
Theorem to_hdu_outcomes (self : NI_EXTENSION) :
  (forall myhdu self', to_hdu self = Return (myhdu, self') ->
      header self' = hdu_header myhdu
      /\ class_of self' = class_of self
      /\ data_table self' = data_table self
      /\ data_array self' = data_array self
      /\ class_name (class_of self) = Some (hdu_name myhdu)
      /\ header_get (hdu_header myhdu) "EXTNAME" = Some (HStr (hdu_name myhdu)))
  /\ match class_of self with
     | NI_KCOV => to_hdu self = Raise AttributeError
     | NI_KMAT =>
         raises (to_hdu self) =
           match data_array self with ARec _ | ACpx _ => true | _ => false end
     | NI_CATM =>
         match data_array self with
         | ANone => to_hdu self = Raise AttributeError
         | AReal _ | ACpx _ => raises (to_hdu self) = false
         | ARec rec => is_Some (float_column rec) -> raises (to_hdu self) = false
         end
     | _ => raises (to_hdu self) = false
     end.
Proof.
  split; [intros myhdu self'; apply to_hdu_keeps |].
  destruct self as [c t h d]. cbn [class_of data_array].
  destruct c; try reflexivity; destruct d; try reflexivity.
  intros [xs Hxs]. unfold to_hdu, rec_planes.
  cbn [codec_of class_of data_array]. rewrite Hxs. reflexivity.
Qed.

(** X9.  Encoding an object of a table kind and decoding the record
    gives back the object as the encode left it; the name of the record
    is the name under which the module finds the class again. *)
Theorem table_decode_encode (self : NI_EXTENSION) :
  codec_of (class_of self) = TableCodec ->
  data_array self = ANone ->
  exists myhdu self',
    to_hdu self = Return (myhdu, self')
    /\ decode_encode self = Return self'
    /\ getclass (hdu_name myhdu) = Return (class_of self)
    /\ decode_kind [myhdu] (hdu_name myhdu) = Return self'.
Proof.
  destruct self as [c t h d]. cbn [class_of data_array]. intros Hc ->.
  destruct c; try discriminate Hc;
    (do 2 eexists; split; [reflexivity |]; repeat split).
Qed.

Lemma table_decode_encode_witness :
  (codec_of (class_of from_scratch) = TableCodec /\ data_array from_scratch = ANone)
  /\ exists myhdu self',
    to_hdu from_scratch = Return (myhdu, self')
    /\ decode_encode from_scratch = Return self'
    /\ getclass (hdu_name myhdu) = Return (class_of from_scratch)
    /\ decode_kind [myhdu] (hdu_name myhdu) = Return self'.
Proof.
  split; [split; reflexivity |].
  apply (table_decode_encode from_scratch); reflexivity.
Defined.

(** X10.  Encoding a kernel-matrix object that encodes and decoding the
    record gives back the array payload and the header as the encode left
    them; the table the object inherits from the generic class is not
    stored, and comes back empty. *)
Theorem array_decode_encode (self : NI_EXTENSION) :
  class_of self = NI_KMAT ->
  raises (to_hdu self) = false ->
  exists myhdu self',
    to_hdu self = Return (myhdu, self')
    /\ decode_encode self = Return (set_data_table self' Table_empty)
    /\ hdu_data_of myhdu =
         match data_array self with AReal a => ImageData a | _ => NoData end.
Proof.
  destruct self as [c t h d]. cbn [class_of]. intros ->.
  destruct d; try discriminate; intros _;
    (do 2 eexists; split; [reflexivity |]; split; reflexivity).
Qed.

Lemma array_decode_encode_witness :
  (class_of Sample.kmat = NI_KMAT /\ raises (to_hdu Sample.kmat) = false)
  /\ exists myhdu self',
    to_hdu Sample.kmat = Return (myhdu, self')
    /\ decode_encode Sample.kmat = Return (set_data_table self' Table_empty)
    /\ hdu_data_of myhdu =
         match data_array Sample.kmat with AReal a => ImageData a | _ => NoData end.
Proof.
  split; [split; reflexivity |].
  apply (array_decode_encode Sample.kmat); reflexivity.
Defined.

(** ** Shapes through the complex-array codec *)

(** X11.  The encode of a complex array adds a leading axis of length 2
    and the decode of a two-plane array drops it; an array with as many
    elements as its shape says goes to one that has, too. *)
Theorem cpx_codec_shapes
    (self : NI_EXTENSION) (z : ndarray complex)
    (name : string) (hdr : Header) (y : ndarray F64.t) (s : list nat) :
  codec_of (class_of self) = CpxArrayCodec ->
  data_array self = ACpx z ->
  np.wf z ->
  shape y = 2%nat :: s ->
  np.wf y ->
  (exists myhdu self' y',
      to_hdu self = Return (myhdu, self')
      /\ hdu_data_of myhdu = ImageData y'
      /\ shape y' = 2%nat :: shape z /\ np.wf y')
  /\ (exists theobj z',
      from_hdu (class_of self) (mkHDU name hdr (ImageData y)) = Return theobj
      /\ data_array theobj = ACpx z'
      /\ shape z' = s /\ np.wf z').
Proof.
  destruct self as [c t h d]. cbn [class_of data_array].
  intros Hc -> Hwf Hsh Hwfy. destruct c; try discriminate Hc. split.
  - do 3 eexists. split; [reflexivity |]. split; [reflexivity |]. split; [reflexivity |].
    unfold np.wf in *. cbn [shape flat split_planes np.stack2 np.map np.size foldr].
    rewrite length_app, !length_fmap. fold (np.size (shape z)). lia.
  - destruct y as [sh xs]. cbn [shape] in Hsh. subst sh.
    unfold from_hdu. cbn [codec_of]. rewrite cpx_from_hdu_planes.
    do 2 eexists. split; [reflexivity |]. split; [reflexivity |]. split; [reflexivity |].
    unfold np.wf in *. cbn [shape flat np.size foldr] in *. fold (np.size s) in *.
    rewrite length_zip_with, !length_take, length_drop. lia.
Qed.

Lemma cpx_codec_shapes_witness :
  (codec_of (class_of (Sample.catm Sample.x_plain)) = CpxArrayCodec
   /\ data_array (Sample.catm Sample.x_plain) = ACpx Sample.x_plain
   /\ np.wf Sample.x_plain
   /\ shape Sample.y_plain = [2%nat; 1%nat]
   /\ np.wf Sample.y_plain)
  /\ (exists myhdu self' y',
      to_hdu (Sample.catm Sample.x_plain) = Return (myhdu, self')
      /\ hdu_data_of myhdu = ImageData y'
      /\ shape y' = 2%nat :: shape Sample.x_plain /\ np.wf y')
  /\ (exists theobj z',
      from_hdu NI_CATM (mkHDU "NI_CATM" [] (ImageData Sample.y_plain)) = Return theobj
      /\ data_array theobj = ACpx z'
      /\ shape z' = [1%nat] /\ np.wf z').
Proof.
  split; [repeat split |].
  apply (cpx_codec_shapes (Sample.catm Sample.x_plain) Sample.x_plain
           "NI_CATM" [] Sample.y_plain [1%nat]); reflexivity.
Defined.

(** ** Numerical equality through the complex-array codec *)

Lemma F64_eqb_refl (x : F64.t) : finite x = true -> F64.eqb x x = true.
Proof.
  destruct x as [s|s| |s m e]; try discriminate; intros _; [reflexivity |].
  unfold F64.eqb, SFeqb, SFcompare.
  destruct s; rewrite Z.compare_refl, Pos.compare_cont_refl; reflexivity.
Qed.

Lemma merge1_numerically_equal (z : complex) :
  C128.valid z = true ->
  finite (real z) = true -> finite (imag z) = true ->
  cpx_eqb (merge1 (real z) (imag z)) z = true.
Proof.
  destruct z as [a b]. unfold C128.valid, cpx_eqb. cbn [real imag].
  intros [Ha Hb]%andb_true_iff Hfa Hfb. rewrite (merge1_unfold a b Hb). cbn [real imag].
  apply andb_true_iff.
  destruct b as [sb|sb| |sb mb eb]; try discriminate Hfb;
    destruct a as [sa|sa| |sa ma ea]; try discriminate Hfa;
    split;
    try (destruct sa, sb; reflexivity);
    first [ apply (F64_eqb_refl (S754_finite sa ma ea) eq_refl)
          | apply (F64_eqb_refl (S754_finite sb mb eb) eq_refl)
          | destruct sb; apply (F64_eqb_refl (S754_finite sa ma ea) eq_refl) ].
Qed.

(** X12.  Saving and loading a complex array all of whose parts are
    finite gives an array of the same shape whose elements all compare
    equal ([==]) to the original ones: only the sign of a zero can change. *)
Theorem cpx_roundtrip_numerically_equal (self : NI_EXTENSION) (z : ndarray complex) :
  codec_of (class_of self) = CpxArrayCodec ->
  data_array self = ACpx z ->
  np.wf z ->
  Forall (fun c => C128.valid c = true) (flat z) ->
  Forall (fun c => finite (real c) = true /\ finite (imag c) = true) (flat z) ->
  exists self' z',
    decode_encode self = Return self'
    /\ data_array self' = ACpx z'
    /\ shape z' = shape z
    /\ Forall2 (fun c' c => cpx_eqb c' c = true) (flat z') (flat z).
Proof.
  intros Hc Hd Hwf Hval Hfin. rewrite (decode_encode_cpx self z Hc Hd Hwf).
  do 2 eexists. split; [reflexivity |]. split; [reflexivity |]. split; [reflexivity |].
  cbn [flat]. apply Forall2_fmap_l, Forall_Forall2_diag.
  rewrite Forall_forall in Hval, Hfin. apply Forall_forall. intros c Hin.
  destruct (Hfin c Hin) as [Hr Hi].
  apply merge1_numerically_equal; [apply Hval, Hin | exact Hr | exact Hi].
Qed.

Lemma cpx_roundtrip_numerically_equal_witness :
  (codec_of (class_of (Sample.catm Sample.x_plain)) = CpxArrayCodec
   /\ data_array (Sample.catm Sample.x_plain) = ACpx Sample.x_plain
   /\ np.wf Sample.x_plain
   /\ Forall (fun c => C128.valid c = true) (flat Sample.x_plain)
   /\ Forall (fun c => finite (real c) = true /\ finite (imag c) = true)
             (flat Sample.x_plain))
  /\ exists self' z',
    decode_encode (Sample.catm Sample.x_plain) = Return self'
    /\ data_array self' = ACpx z'
    /\ shape z' = shape Sample.x_plain
    /\ Forall2 (fun c' c => cpx_eqb c' c = true) (flat z') (flat Sample.x_plain).
Proof.
  assert (Hv : Forall (fun c => C128.valid c = true) (flat Sample.x_plain))
    by (repeat constructor).
  assert (Hf : Forall (fun c => finite (real c) = true /\ finite (imag c) = true)
                      (flat Sample.x_plain))
    by (repeat constructor).
  split; [repeat split; assumption |].
  apply (cpx_roundtrip_numerically_equal (Sample.catm Sample.x_plain) Sample.x_plain);
    first [reflexivity | assumption].
Defined.

(** ** Comparing stations and coordinate lists *)

Lemma opt_ne_str_false (a b : option string) : opt_ne str_ne a b = false <-> a = b.
Proof.
  destruct a as [x|], b as [y|]; cbn; try (split; [discriminate | congruence]);
    [| split; reflexivity].
  unfold str_ne. destruct (String.eqb_spec x y) as [-> | Hne]; cbn.
  - split; reflexivity.
  - split; [discriminate | congruence].
Qed.

(** X13.  Comparing a station with another station raises [NameError]
    exactly when the two agree on the revision, on both names and on the
    diameter, and otherwise answers "unequal"; the positions and the
    field-of-view fields of the two stations never influence the outcome,
    and [!=] answers "unequal" or raises, never "equal". *)
Theorem OI_STATION_comparison_outcomes (self other : OI_STATION) :
  (OI_STATION_eq self (ObjStation other) = Raise NameError
   <-> revision self = revision other
       /\ tel_name self = tel_name other
       /\ sta_name self = sta_name other
       /\ opt_ne F64.neb (diameter self) (diameter other) = false)
  /\ (OI_STATION_eq self (ObjStation other) <> Raise NameError
      <-> OI_STATION_eq self (ObjStation other) = Return false)
  /\ OI_STATION_eq self (ObjStation other)
     = OI_STATION_eq
         (mkStation (revision self) (tel_name self) (sta_name self) (diameter self)
                    [] None None)
         (ObjStation
            (mkStation (revision other) (tel_name other) (sta_name other)
                       (diameter other) [] None None))
  /\ OI_STATION_ne self (ObjStation other) <> Return false
  /\ OI_STATION_ne self ObjOther = Return true.
Proof.
  unfold OI_STATION_ne, OI_STATION_eq. cbn [revision tel_name sta_name diameter].
  destruct (Z.eqb_spec (revision self) (revision other)) as [Hr | Hr]; cbn [negb];
    [| repeat split; try congruence; try discriminate; intros (? & _); contradiction].
  destruct (opt_ne str_ne (tel_name self) (tel_name other)) eqn:Ht;
    [repeat split; try congruence; try discriminate;
     intros (_ & Ht' & _); apply opt_ne_str_false in Ht'; congruence |].
  destruct (opt_ne str_ne (sta_name self) (sta_name other)) eqn:Hs;
    [repeat split; try congruence; try discriminate;
     intros (_ & _ & Hs' & _); apply opt_ne_str_false in Hs'; congruence |].
  destruct (opt_ne F64.neb (diameter self) (diameter other)) eqn:Hd;
    [repeat split; try congruence; try discriminate;
     intros (_ & _ & _ & Hd'); congruence |].
  apply opt_ne_str_false in Ht, Hs. cbn.
  repeat split; try congruence; try discriminate.
Qed.

(** X14.  Building a station again from the fields a constructed station
    stores gives the same station and the same warnings, and a warning is
    emitted exactly when the revision is above 2. *)
Theorem OI_STATION_init_idempotent
    (tel sta : option string) (diam : option F64.t)
    (xyz : list (option pyfloat)) (fov_given : option F64.t)
    (fovtype_given : option string) (rev : Z) :
  let built := OI_STATION_init tel sta diam xyz fov_given fovtype_given rev in
  OI_STATION_init (tel_name built.1) (sta_name built.1) (diameter built.1)
                  (staxyz built.1) (fov built.1) (fovtype built.1) (revision built.1)
  = built
  /\ (built.2 = [] <-> rev <= 2)
  /\ (built.2 = [UserWarning_revision_not_implemented rev] <-> 2 < rev).
Proof.
  cbn zeta. unfold OI_STATION_init.
  destruct (Z.geb_spec rev 2) as [Hge | Hlt]; destruct (Z.gtb_spec rev 2) as [Hgt | Hle];
    cbn [fst snd revision tel_name sta_name diameter staxyz fov fovtype].
  - destruct (Z.geb_spec rev 2); [| lia]. destruct (Z.gtb_spec rev 2); [| lia].
    repeat split; try discriminate; try lia.
  - destruct (Z.geb_spec rev 2); [| lia]. destruct (Z.gtb_spec rev 2); [lia |].
    repeat split; try discriminate; try lia.
  - lia.
  - destruct (Z.geb_spec rev 2); [lia |]. destruct (Z.gtb_spec rev 2); [lia |].
    repeat split; try discriminate; try lia.
Qed.

Lemma F64_eqb_sym (x y : F64.t) : F64.eqb x y = F64.eqb y x.
Proof.
  unfold F64.eqb, SFeqb, SFcompare.
  destruct x as [sx|sx| |sx mx ex], y as [sy|sy| |sy my ey]; try reflexivity;
    try (destruct sx, sy; reflexivity).
  change (Pos.compare_cont Eq mx my) with (Pos.compare mx my).
  change (Pos.compare_cont Eq my mx) with (Pos.compare my mx).
  rewrite (Z.compare_antisym ex ey), (Pos.compare_antisym mx my).
  destruct sx, sy; try reflexivity;
    destruct (ex ?= ey); try reflexivity; destruct (mx ?= my)%positive; reflexivity.
Qed.

Lemma item_ne_sym (x y : option pyfloat) : item_ne x y = item_ne y x.
Proof.
  destruct x as [[i u]|], y as [[j v]|]; try reflexivity. unfold item_ne, F64.neb.
  cbn [float_id float_val]. rewrite Pos.eqb_sym, F64_eqb_sym. reflexivity.
Qed.

Lemma item_ne_refl (x : option pyfloat) : item_ne x x = false.
Proof.
  destruct x as [[i u]|]; [| reflexivity]. unfold item_ne. cbn [float_id].
  rewrite Pos.eqb_refl. reflexivity.
Qed.

Lemma list_ne_false {A} (ne : A -> A -> bool) (a b : list A) :
  list_ne ne a b = false <-> Forall2 (fun x y => ne x y = false) a b.
Proof.
  revert b. induction a as [|x a IH]; intros [|y b]; cbn.
  - split; [constructor | reflexivity].
  - split; [discriminate | inversion 1].
  - split; [discriminate | inversion 1].
  - rewrite orb_false_iff, IH. split.
    + intros [Hx Hab]. constructor; assumption.
    + inversion 1; subst. split; assumption.
Qed.

(** X15.  On two coordinate lists, [array_eq] answers "equal" exactly
    when the lists have the same length and every position holds one and
    the same object in both, or two values that are not unequal ([!=]);
    it is symmetric; a list equals itself, also when it holds a NaN,
    while two lists holding a NaN each, in two objects, are unequal. *)
Theorem array_eq_outcomes (a b : list (option pyfloat)) :
  (array_eq a b = true <-> Forall2 (fun x y => item_ne x y = false) a b)
  /\ (array_eq a b = true ->
      length a = length b
      /\ forall (n : nat) (x y : pyfloat),
           a !! n = Some (Some x) -> b !! n = Some (Some y) ->
           float_id x = float_id y \/ F64.eqb (float_val x) (float_val y) = true)
  /\ array_eq a b = array_eq b a
  /\ array_eq a a = true
  /\ (forall i j : positive,
        array_eq [Some (PyFloat i F64.nan)] [Some (PyFloat j F64.nan)] = Pos.eqb i j).
Proof.
  assert (Hchar : forall a b : list (option pyfloat),
             array_eq a b = true
             <-> Forall2 (fun x y => item_ne x y = false) a b).
  { intros a' b'. unfold array_eq.
    destruct (Nat.eqb_spec (length a') (length b')) as [Hlen | Hlen]; cbn [negb].
    - rewrite negb_true_iff. apply list_ne_false.
    - split; [discriminate |]. intros H. apply Forall2_length in H. contradiction. }
  split; [apply Hchar |]. split; [| split; [| split]].
  - intros H. apply Hchar in H. split; [apply (Forall2_length _ _ _ H) |].
    intros n x y Hx Hy.
    pose proof (Forall2_lookup_lr _ _ _ _ _ _ H Hx Hy) as Hxy.
    unfold item_ne, F64.neb in Hxy. apply andb_false_iff in Hxy as [Hid | Hv].
    + left. apply negb_false_iff, Pos.eqb_eq in Hid. exact Hid.
    + right. apply negb_false_iff in Hv. exact Hv.
  - destruct (array_eq a b) eqn:Hab, (array_eq b a) eqn:Hba; try reflexivity.
    + apply Hchar in Hab. rewrite <- Hba. symmetry. apply Hchar.
      apply Forall2_flip. eapply Forall2_impl; [exact Hab |].
      intros x y Hxy. cbn. rewrite item_ne_sym. exact Hxy.
    + apply Hchar in Hba. rewrite <- Hab. apply Hchar.
      apply Forall2_flip. eapply Forall2_impl; [exact Hba |].
      intros x y Hxy. cbn. rewrite item_ne_sym. exact Hxy.
  - apply Hchar, Forall_Forall2_diag, Forall_forall. intros x _. apply item_ne_refl.
  - intros i j. unfold array_eq, item_ne. cbn. destruct (Pos.eqb i j); reflexivity.
Qed.

(** ** Rows of the target list *)

Lemma convert_raises (coerce : dtype -> cell -> py cell) (dt : dtype) (v : cell) (e : exn) :
  convert coerce dt v = Raise e -> e = ValueError.
Proof.
  unfold convert.
  destruct dt, v; try destruct (never_numeric s); try (destruct (coerce _ _); congruence);
    first [destruct (int64_ok n); congruence | congruence].
Qed.

Lemma convert_row_raises (coerce : dtype -> cell -> py cell)
    (dts : list dtype) (vals : list cell) (e : exn) :
  convert_row coerce dts vals = Raise e -> e = ValueError.
Proof.
  revert vals. induction dts as [|dt dts IH]; intros [|v vals]; cbn [convert_row];
    try discriminate.
  destruct (convert coerce dt v) as [c|e'] eqn:Hc; cbn.
  - destruct (convert_row coerce dts vals) as [r|e'] eqn:Hr; cbn; [discriminate |].
    intros [= <-]. apply (IH vals), Hr.
  - intros [= <-]. apply (convert_raises coerce dt v), Hc.
Qed.

(** X16.  [add_target] raises nothing but [ValueError], and raises it on
    every table that has not eighteen columns, the empty default table
    included.  On a table with the eighteen column types of
    [from_scratch] it succeeds exactly when the identifier fits a signed
    64-bit integer; it then appends its values as the last row and
    changes nothing else of the object.  On a table whose second column
    is a number column it raises [ValueError] when the target name spells
    no number, as the default name does. *)
Theorem add_target_outcomes
    (coerce : dtype -> cell -> py cell) (self : NI_EXTENSION) (a : target_args) :
  (forall e, add_target coerce self a = Raise e -> e = ValueError)
  /\ (n_cols (data_table self) <> 18%nat -> add_target coerce self a = Raise ValueError)
  /\ (n_cols (data_table self) = 18%nat ->
      dtypes (data_table self) = OI_TARGET_dtype ->
      add_target coerce self a =
        if int64_ok (target_id a)
        then Return (mkExt (class_of self)
                       (mkTable (colnames (data_table self)) (dtypes (data_table self))
                                (rows (data_table self) ++ [stored_row a]))
                       (header self) (data_array self))
        else Raise ValueError)
  /\ (forall (dt0 dt1 : dtype) (rest : list dtype),
        n_cols (data_table self) = 18%nat ->
        dtypes (data_table self) = dt0 :: dt1 :: rest ->
        dt1 <> dt_str ->
        never_numeric (target a) = true ->
        add_target coerce self a = Raise ValueError)
  /\ never_numeric (target default_target) = true
  /\ add_target coerce (mkExt OI_TARGET Table_empty [] ANone) a = Raise ValueError.
Proof.
  split; [| split; [| split; [| split; [| split; reflexivity]]]].
  - unfold add_target, add_row. intros e.
    destruct (length (target_vals a) =? length (colnames (data_table self)))%nat;
      cbn; [| congruence].
    destruct (convert_row coerce _ _) as [r|e'] eqn:Hr; cbn; [discriminate |].
    intros [= <-]. apply (convert_row_raises coerce _ _ _ Hr).
  - intros Hne. unfold add_target, add_row. fold (n_cols (data_table self)).
    cbn [length target_vals].
    apply Nat.eqb_neq in Hne. rewrite Nat.eqb_sym, Hne. reflexivity.
  - intros Hcols Hdt. rewrite (add_target_schema coerce self a Hcols Hdt). reflexivity.
  - intros dt0 dt1 rest Hcols Hdt Hdt1 Hname. unfold add_target, add_row.
    fold (n_cols (data_table self)). rewrite Hcols, Hdt.
    cbn [length target_vals Nat.eqb convert_row].
    destruct (convert coerce dt0 (CInt (target_id a))) as [c0|e] eqn:H0; cbn [mbind py_bind].
    + assert (H1 : convert coerce dt1 (CStr (target a)) = Raise ValueError)
        by (unfold convert; destruct dt1; [rewrite Hname .. | contradiction]; reflexivity).
      rewrite H1. reflexivity.
    + rewrite (convert_raises coerce _ _ _ H0). reflexivity.
Qed.

(** ** What a save that returns has done *)

(** X17.  A save that writes no file returns exactly when every selected
    kind is [saveable]: the container has no attribute for it, or the
    attribute holds an extension object that encodes. *)
Theorem to_nifits_succeeds_iff
    (self : nifits) (fs : storage) (filename static_hash : string)
    (static_only dynamic_only overwrite : bool) (kinds : list string) :
  extension_list static_only dynamic_only = Return kinds ->
  (exists s, to_nifits self fs filename static_only dynamic_only static_hash
               false overwrite = Return s)
  <-> (forall k, k ∈ kinds -> saveable self k).
Proof.
  intros Hkinds. rewrite (to_nifits_in_memory _ _ _ _ _ _ _ _ Hkinds).
  assert (Hnd : NoDup (lower <$> kinds))
    by apply kinds_lower_NoDup, (extension_list_cases _ _ _ Hkinds).
  split.
  - intros [s Hs].
    destruct (for_each save_step kinds (mkSave self [] PrimaryHDU_header))
      as [st|e] eqn:Hrun; [| discriminate].
    apply (save_loop_inv kinds _ st Hnd Hrun).
  - intros Hall.
    destruct (save_loop kinds (mkSave self [] PrimaryHDU_header) Hnd Hall)
      as (st & -> & _). eexists. reflexivity.
Qed.

Lemma to_nifits_succeeds_iff_witness :
  extension_list true false = Return static_kinds
  /\ ((exists s, to_nifits Sample.static_container ∅ "" true false "" false false
                 = Return s)
      <-> (forall k, k ∈ static_kinds -> saveable Sample.static_container k)).
Proof.
  split; [reflexivity |].
  apply (to_nifits_succeeds_iff Sample.static_container ∅ "" "" true false false
           static_kinds).
  reflexivity.
Defined.

(** X18.  When a save that writes no file returns, the list it returns is
    the primary record followed by the records of the selected kinds whose
    slot holds an object, in the order of the kind list; each such slot
    then holds the object with the header of its record and with its table
    and array untouched; no other attribute of the container and nothing
    of the storage has changed. *)
Theorem to_nifits_result
    (self : nifits) (fs : storage) (filename static_hash : string)
    (static_only dynamic_only overwrite : bool) (kinds : list string) (s : saved) :
  extension_list static_only dynamic_only = Return kinds ->
  to_nifits self fs filename static_only dynamic_only static_hash false overwrite
    = Return s ->
  (exists hdr,
      hdulist_of s
      = mkHDU "PRIMARY" hdr NoData :: omap (fun k => fst <$> encoded self k) kinds)
  /\ storage_of s = fs
  /\ (forall k theobj, k ∈ kinds -> getattr self (lower k) = Some (PyExt theobj) ->
        exists thehdu theobj',
          to_hdu theobj = Return (thehdu, theobj')
          /\ thehdu ∈ hdulist_of s
          /\ getattr (self_of s) (lower k) = Some (PyExt theobj')
          /\ header theobj' = hdu_header thehdu
          /\ data_table theobj' = data_table theobj
          /\ data_array theobj' = data_array theobj)
  /\ (forall n, n ∉ lower <$> kinds -> getattr (self_of s) n = getattr self n).
Proof.
  intros Hkinds. rewrite (to_nifits_in_memory _ _ _ _ _ _ _ _ Hkinds).
  assert (Hnd : NoDup (lower <$> kinds))
    by apply kinds_lower_NoDup, (extension_list_cases _ _ _ Hkinds).
  destruct (for_each save_step kinds (mkSave self [] PrimaryHDU_header))
    as [st|e] eqn:Hrun; [| discriminate].
  rewrite bind_Return. intros [= <-]. cbn [hdulist_of storage_of self_of].
  destruct (save_loop_inv kinds _ st Hnd Hrun) as (Hsav & Hrec & Hset & Hfr).
  cbn [sv_self sv_records app] in *.
  split; [exists (sv_header st); rewrite Hrec; reflexivity |].
  split; [reflexivity |]. split; [| exact Hfr].
  intros k theobj Hk Hget.
  assert (Hh : hasattr self (lower k) = true).
  { unfold hasattr. rewrite Hget. apply bool_decide_eq_true_2. eauto. }
  destruct (Hsav k Hk Hh) as (o & Ho & Hok). rewrite Hget in Ho.
  injection Ho as <-. destruct (raises_false _ Hok) as [[thehdu theobj'] Henc].
  assert (Hen : encoded self k = Some (thehdu, theobj')).
  { unfold encoded. rewrite Hget, Henc. reflexivity. }
  exists thehdu, theobj'. split; [exact Henc |].
  destruct (to_hdu_keeps theobj theobj' thehdu Henc) as (Hh1 & _ & Ht & Ha & _).
  split; [| split; [| split; [exact Hh1 | split; [exact Ht | exact Ha]]]].
  - right. rewrite Hrec. apply list_elem_of_omap. exists k.
    split; [exact Hk |]. rewrite Hen. reflexivity.
  - rewrite (Hset k Hk Hh), Hen. reflexivity.
Qed.

Lemma to_nifits_result_witness :
  exists s,
    (extension_list true false = Return static_kinds
     /\ to_nifits Sample.static_container ∅ "" true false "" false false = Return s)
    /\ (exists hdr,
          hdulist_of s
          = mkHDU "PRIMARY" hdr NoData
              :: omap (fun k => fst <$> encoded Sample.static_container k) static_kinds)
    /\ storage_of s = ∅
    /\ (forall k theobj, k ∈ static_kinds ->
          getattr Sample.static_container (lower k) = Some (PyExt theobj) ->
          exists thehdu theobj',
            to_hdu theobj = Return (thehdu, theobj')
            /\ thehdu ∈ hdulist_of s
            /\ getattr (self_of s) (lower k) = Some (PyExt theobj')
            /\ header theobj' = hdu_header thehdu
            /\ data_table theobj' = data_table theobj
            /\ data_array theobj' = data_array theobj)
    /\ (forall n, n ∉ lower <$> static_kinds ->
          getattr (self_of s) n = getattr Sample.static_container n).
Proof.
  eexists. split; [split; [reflexivity | vm_compute; reflexivity] |].
  apply (to_nifits_result Sample.static_container ∅ "" "" true false false static_kinds);
    [reflexivity | vm_compute; reflexivity].
Defined.

(** ** Saving what was loaded *)

Lemma from_nifits_Path (fs : storage) (f : string) :
  from_nifits fs (Path f)
  = match file_at fs f with
    | Some hdulist => from_nifits fs (Opened hdulist)
    | None => Raise FileNotFoundError
    end.
Proof. unfold from_nifits, fits_open. destruct (file_at fs f); reflexivity. Qed.

Lemma loaded_kcov_not_saveable (fs : storage) (hdulist : list HDU) (self : nifits) :
  from_nifits fs (Opened hdulist) = Return self -> ~ saveable self "NI_KCOV".
Proof.
  intros Hload Hsav.
  assert (Hex : exists self, from_nifits fs (Opened hdulist) = Return self) by eauto.
  apply load_succeeds_iff in Hex as (_ & _ & Hdec).
  destruct (load_binds fs hdulist self Hload) as (_ & _ & _ & Hk).
  specialize (Hk "NI_KCOV" ltac:(by_decide) ltac:(discriminate)).
  change (lower "NI_KCOV") with "ni_kcov" in Hk.
  unfold saveable, hasattr in Hsav. change (lower "NI_KCOV") with "ni_kcov" in Hsav.
  rewrite Hk in Hsav.
  destruct (hdulist_contains hdulist "NI_KCOV") eqn:Hc.
  - specialize (Hdec "NI_KCOV" ltac:(by_decide) Hc). unfold decoded in Hsav.
    destruct (decode_kind hdulist "NI_KCOV") as [o|e] eqn:Hd; [| discriminate Hdec].
    destruct (Hsav (bool_decide_eq_true_2 _ (mk_is_Some _ _ eq_refl)))
      as (o' & [= <-] & Hok).
    unfold decode_kind in Hd. cbn [getclass String.eqb Ascii.eqb Bool.eqb] in Hd.
    change (getclass "NI_KCOV") with (Return NI_KCOV : py ext_class) in Hd.
    rewrite bind_Return in Hd.
    destruct (hdulist_getitem hdulist "NI_KCOV") as [hdu|e]; [| discriminate Hd].
    rewrite bind_Return in Hd. apply from_hdu_keeps in Hd as [Hcls _].
    rewrite (to_hdu_NI_KCOV o Hcls) in Hok. discriminate Hok.
  - destruct (Hsav (bool_decide_eq_true_2 _ (mk_is_Some _ _ eq_refl)))
      as (o' & [=] & _).
Qed.

(** X19.  No container a load returns can be saved in full or
    dynamic-only: the slot of the output covariance holds [None] or an
    object of the class without a [name], so every save with
    [static_only] unset raises. *)
Theorem loaded_container_save_raises
    (fs fs' : storage) (filename : source) (self : nifits)
    (target static_hash : string) (dynamic_only writefile overwrite : bool) :
  from_nifits fs filename = Return self ->
  raises (to_nifits self fs' target false dynamic_only static_hash writefile overwrite)
  = true.
Proof.
  intros Hload.
  assert (Hex : exists hdulist, from_nifits fs (Opened hdulist) = Return self).
  { destruct filename as [hdulist|f]; [eauto |].
    rewrite from_nifits_Path in Hload. destruct (file_at fs f) as [hdulist|]; [eauto |].
    discriminate Hload. }
  destruct Hex as [hdulist Hopen].
  pose proof (loaded_kcov_not_saveable fs hdulist self Hopen) as Hkcov.
  unfold to_nifits.
  assert (Hkinds : exists kinds, extension_list false dynamic_only = Return kinds
                                 /\ "NI_KCOV" ∈ kinds).
  { destruct dynamic_only; eexists; (split; [reflexivity | by_decide]). }
  destruct Hkinds as (kinds & Hkinds & Hin). rewrite Hkinds, bind_Return.
  destruct (for_each save_step kinds (mkSave self [] PrimaryHDU_header))
    as [st|e] eqn:Hrun; [| reflexivity].
  exfalso. apply Hkcov.
  assert (Hnd : NoDup (lower <$> kinds))
    by apply kinds_lower_NoDup, (extension_list_cases _ _ _ Hkinds).
  destruct (save_loop_inv kinds _ st Hnd Hrun) as (Hsav & _).
  apply (Hsav "NI_KCOV" Hin).
Qed.

Lemma loaded_container_save_raises_witness :
  exists self,
    from_nifits ∅ (Opened Sample.good_source) = Return self
    /\ raises (to_nifits self ∅ "" false false "" false false) = true.
Proof.
  eexists. split; [vm_compute; reflexivity |].
  apply (loaded_container_save_raises ∅ ∅ (Opened Sample.good_source)).
  vm_compute. reflexivity.
Defined.

(** ** A static-only save, loaded again *)

(** X20.  Take a container without array-geometry attribute whose
    wavelength grid, transfer matrix and field of view hold objects of
    their own classes.  Its static-only save in memory succeeds, and the
    load of the returned list succeeds: it gives the primary header with
    the four flags, the two tables exactly as the save left them, the
    transfer matrix with the header as the save left it and with every
    element merged again from its two stored parts, and [None] for the
    five dynamic kinds. *)
Theorem static_save_then_load
    (self : nifits) (fs : storage) (filename static_hash : string)
    (dynamic_only : bool) (w c f : NI_EXTENSION) (z : ndarray complex) :
  hasattr self "oi_array" = false ->
  getattr self "oi_wavelength" = Some (PyExt w) ->
  class_of w = OI_WAVELENGTH -> data_array w = ANone ->
  getattr self "ni_catm" = Some (PyExt c) ->
  class_of c = NI_CATM -> data_array c = ACpx z -> np.wf z ->
  getattr self "ni_fov" = Some (PyExt f) ->
  class_of f = NI_FOV -> data_array f = ANone ->
  exists s loaded hdr c',
    to_nifits self fs filename true dynamic_only static_hash false false = Return s
    /\ from_nifits fs (Opened (hdulist_of s)) = Return loaded
    /\ getattr loaded "header" = Some (PyHeader hdr)
    /\ header_get hdr "OI_ARRAY" = Some (HStr "Not included")
    /\ header_get hdr "OI_WAVELENGTH" = Some (HStr "Included")
    /\ header_get hdr "NI_CATM" = Some (HStr "Included")
    /\ header_get hdr "NI_FOV" = Some (HStr "Included")
    /\ getattr loaded "oi_wavelength" = getattr (self_of s) "oi_wavelength"
    /\ getattr loaded "oi_wavelength"
       = Some (PyExt (set_header w (hdu_header (BinTableHDU "OI_WAVELENGTH"
                                                  (data_table w) (header w)))))
    /\ getattr loaded "ni_fov" = getattr (self_of s) "ni_fov"
    /\ getattr loaded "ni_fov"
       = Some (PyExt (set_header f (hdu_header (BinTableHDU "NI_FOV"
                                                  (data_table f) (header f)))))
    /\ getattr (self_of s) "ni_catm" = Some (PyExt c')
    /\ data_array c' = ACpx z
    /\ getattr loaded "ni_catm"
       = Some (PyExt (mkExt NI_CATM Table_empty (header c')
                        (ACpx (NdArray (shape z)
                                 ((fun x => merge1 (real x) (imag x)) <$> flat z)))))
    /\ Forall (fun k => getattr loaded (lower k) = Some PyNone) dynamic_kinds.
Proof.
  intros Harr Hw Hcw Hdw Hc Hcc Hdc Hwfz Hf Hcf Hdf.
  destruct w as [cw tw hw dw], c as [cc tc hc dc], f as [cf tf hf df].
  cbn [class_of data_array data_table header] in *. subst cw dw cc dc cf df.
  pose proof (hasattr_false_getattr _ _ Harr) as Harr'.
  assert (Hnd : NoDup (lower <$> static_kinds)) by by_decide.
  assert (Hall : forall k, k ∈ static_kinds -> saveable self k).
  { intros k Hk. unfold saveable.
    repeat (apply elem_of_cons in Hk as [-> | Hk]); [| | | | inversion Hk].
    - change (lower "OI_ARRAY") with "oi_array". rewrite Harr. discriminate.
    - intros _. eexists. split; [exact Hw | reflexivity].
    - intros _. eexists. split; [exact Hc | reflexivity].
    - intros _. eexists. split; [exact Hf | reflexivity]. }
  destruct (save_loop static_kinds (mkSave self [] PrimaryHDU_header) Hnd Hall)
    as (st & Hrun & Hflags & _).
  destruct (save_loop_inv static_kinds _ st Hnd Hrun) as (_ & Hrec & Hset & _).
  cbn [sv_self sv_records app] in Hrec, Hset, Hflags.
  assert (Hh : forall n v, getattr self n = Some v -> hasattr self n = true).
  { intros n v Hn. unfold hasattr. rewrite Hn. apply bool_decide_eq_true_2. eauto. }
  pose proof (Hset "OI_WAVELENGTH" ltac:(by_decide) (Hh _ _ Hw)) as Hsw.
  pose proof (Hset "NI_CATM" ltac:(by_decide) (Hh _ _ Hc)) as Hsc.
  pose proof (Hset "NI_FOV" ltac:(by_decide) (Hh _ _ Hf)) as Hsf.
  unfold encoded in Hsw, Hsc, Hsf, Hrec. cbn [static_kinds omap list_omap] in Hrec.
  change (lower "OI_ARRAY") with "oi_array" in *.
  change (lower "OI_WAVELENGTH") with "oi_wavelength" in *.
  change (lower "NI_CATM") with "ni_catm" in *.
  change (lower "NI_FOV") with "ni_fov" in *.
  rewrite Harr', Hw, Hc, Hf in Hrec. rewrite Hw in Hsw. rewrite Hc in Hsc.
  rewrite Hf in Hsf.
  cbn [to_hdu codec_of class_of get_name class_name mbind py_bind data_array
       data_table header ImageHDU fmap option_fmap option_map fst snd] in Hrec, Hsw, Hsc, Hsf.
  cbn [mbind option_bind] in Hrec.
  set (records := sv_records st) in *.
  set (L := mkHDU "PRIMARY" (sv_header st) NoData :: records).
  assert (Hsave :
            to_nifits self fs filename true dynamic_only static_hash false false
            = Return (mkSaved L (sv_self st) fs)).
  { rewrite (to_nifits_in_memory _ _ _ _ _ _ _ static_kinds
               (extension_list_static dynamic_only)), Hrun. reflexivity. }
  assert (Hdw : decode_kind L "OI_WAVELENGTH"
                = Return (set_header (mkExt OI_WAVELENGTH tw hw ANone)
                            (hdu_header (BinTableHDU "OI_WAVELENGTH" tw hw))))
    by (subst L records; rewrite Hrec; reflexivity).
  assert (Hdf : decode_kind L "NI_FOV"
                = Return (set_header (mkExt NI_FOV tf hf ANone)
                            (hdu_header (BinTableHDU "NI_FOV" tf hf))))
    by (subst L records; rewrite Hrec; reflexivity).
  assert (Hdc : decode_kind L "NI_CATM"
                = decode_encode (mkExt NI_CATM tc hc (ACpx z)))
    by (subst L records; rewrite Hrec; reflexivity).
  rewrite (decode_encode_cpx (mkExt NI_CATM tc hc (ACpx z)) z eq_refl eq_refl Hwfz) in Hdc.
  cbn [class_of header] in Hdc.
  assert (Hcon : forall k, k ∈ NIFITS_EXTENSIONS ->
                   hdulist_contains L k =
                   existsb (String.eqb k) ["OI_WAVELENGTH"; "NI_CATM"; "NI_FOV"]).
  { intros k Hk. subst L records. rewrite Hrec.
    repeat (apply elem_of_cons in Hk as [-> | Hk]); first [reflexivity | inversion Hk]. }
  assert (Hload : exists loaded, from_nifits fs (Opened L) = Return loaded).
  { apply load_succeeds_iff. split; [eexists; reflexivity |].
    split; [apply Hcon; by_decide |].
    intros k Hk. rewrite (Hcon k Hk).
    repeat (apply elem_of_cons in Hk as [-> | Hk]);
      try discriminate; intros _;
      first [rewrite Hdw | rewrite Hdc | rewrite Hdf | inversion Hk]; reflexivity. }
  destruct Hload as [loaded Hload].
  destruct (load_binds fs L loaded Hload) as ((primary & Hprim & Hhdr) & _ & _ & Hk).
  change (hdulist_getitem L "PRIMARY")
    with (Return (mkHDU "PRIMARY" (sv_header st) NoData) : py HDU) in Hprim.
  injection Hprim as <-. cbn [hdu_header] in Hhdr.
  pose proof (Hk "OI_WAVELENGTH" ltac:(by_decide) ltac:(discriminate)) as Hlw.
  pose proof (Hk "NI_CATM" ltac:(by_decide) ltac:(discriminate)) as Hlc.
  pose proof (Hk "NI_FOV" ltac:(by_decide) ltac:(discriminate)) as Hlf.
  rewrite Hcon in Hlw, Hlc, Hlf by by_decide. unfold decoded in Hlw, Hlc, Hlf.
  rewrite Hdw in Hlw. rewrite Hdc in Hlc. rewrite Hdf in Hlf.
  change (lower "OI_WAVELENGTH") with "oi_wavelength" in Hlw.
  change (lower "NI_CATM") with "ni_catm" in Hlc.
  change (lower "NI_FOV") with "ni_fov" in Hlf.
  cbn [existsb String.eqb Ascii.eqb Bool.eqb orb] in Hlw, Hlc, Hlf.
  eexists (mkSaved L (sv_self st) fs), loaded, (sv_header st), _.
  cbn [hdulist_of self_of].
  split; [exact Hsave |]. split; [exact Hload |]. split; [exact Hhdr |].
  split; [rewrite (Hflags "OI_ARRAY") by by_decide; unfold flag_of;
          change (lower "OI_ARRAY") with "oi_array"; rewrite Harr; reflexivity |].
  split; [rewrite (Hflags "OI_WAVELENGTH") by by_decide; unfold flag_of;
          change (lower "OI_WAVELENGTH") with "oi_wavelength";
          rewrite (Hh _ _ Hw); reflexivity |].
  split; [rewrite (Hflags "NI_CATM") by by_decide; unfold flag_of;
          change (lower "NI_CATM") with "ni_catm"; rewrite (Hh _ _ Hc); reflexivity |].
  split; [rewrite (Hflags "NI_FOV") by by_decide; unfold flag_of;
          change (lower "NI_FOV") with "ni_fov"; rewrite (Hh _ _ Hf); reflexivity |].
  split; [rewrite Hlw, Hsw; reflexivity |]. split; [exact Hlw |].
  split; [rewrite Hlf, Hsf; reflexivity |]. split; [exact Hlf |].
  split; [exact Hsc |]. split; [reflexivity |]. split; [exact Hlc |].
  repeat constructor;
    match goal with
    | |- getattr loaded (lower ?k) = _ =>
        rewrite (Hk k ltac:(by_decide) ltac:(discriminate)), Hcon by by_decide;
        reflexivity
    end.
Qed.

Lemma static_save_then_load_witness :
  exists s loaded hdr c',
    to_nifits Sample.static_container ∅ "" true false "" false false = Return s
    /\ from_nifits ∅ (Opened (hdulist_of s)) = Return loaded
    /\ getattr loaded "header" = Some (PyHeader hdr)
    /\ header_get hdr "OI_ARRAY" = Some (HStr "Not included")
    /\ header_get hdr "OI_WAVELENGTH" = Some (HStr "Included")
    /\ header_get hdr "NI_CATM" = Some (HStr "Included")
    /\ header_get hdr "NI_FOV" = Some (HStr "Included")
    /\ getattr loaded "oi_wavelength" = getattr (self_of s) "oi_wavelength"
    /\ getattr loaded "oi_wavelength"
       = Some (PyExt (set_header Sample.wavelength
                        (hdu_header (BinTableHDU "OI_WAVELENGTH"
                                       (data_table Sample.wavelength)
                                       (header Sample.wavelength)))))
    /\ getattr loaded "ni_fov" = getattr (self_of s) "ni_fov"
    /\ getattr loaded "ni_fov"
       = Some (PyExt (set_header Sample.fov_model
                        (hdu_header (BinTableHDU "NI_FOV"
                                       (data_table Sample.fov_model)
                                       (header Sample.fov_model)))))
    /\ getattr (self_of s) "ni_catm" = Some (PyExt c')
    /\ data_array c' = ACpx Sample.x_plain
    /\ getattr loaded "ni_catm"
       = Some (PyExt (mkExt NI_CATM Table_empty (header c')
                        (ACpx (NdArray (shape Sample.x_plain)
                                 ((fun x => merge1 (real x) (imag x))
                                    <$> flat Sample.x_plain)))))
    /\ Forall (fun k => getattr loaded (lower k) = Some PyNone) dynamic_kinds.
Proof.
  apply (static_save_then_load Sample.static_container ∅ "" "" false
           Sample.wavelength (Sample.catm Sample.x_plain) Sample.fov_model
           Sample.x_plain); reflexivity.
Defined.

(** ** Writing the file *)

(** X21.  When a save that writes its file returns, the save of the same
    container without writing returns the same record list and the same
    container; the file holds exactly the returned list and no other file
    has changed; a load from the path of the file is the load of the
    returned list; and without [overwrite] there was no file of that name
    before. *)
Theorem to_nifits_writes_file
    (self : nifits) (fs : storage) (target static_hash : string)
    (static_only dynamic_only overwrite : bool) (s : saved) :
  to_nifits self fs target static_only dynamic_only static_hash true overwrite
    = Return s ->
  to_nifits self fs target static_only dynamic_only static_hash false overwrite
    = Return (mkSaved (hdulist_of s) (self_of s) fs)
  /\ fits_open (storage_of s) target = Return (hdulist_of s)
  /\ (forall other, other <> target -> storage_of s !! other = fs !! other)
  /\ from_nifits (storage_of s) (Path target)
     = from_nifits fs (Opened (hdulist_of s))
  /\ (overwrite = false -> fs !! target = None).
Proof.
  unfold to_nifits.
  destruct (extension_list static_only dynamic_only) as [kinds|e]; [| discriminate].
  rewrite !bind_Return.
  destruct (for_each save_step kinds (mkSave self [] PrimaryHDU_header)) as [st|e];
    [| discriminate].
  rewrite !bind_Return. unfold writeto.
  destruct (String.eqb target "") eqn:Hname; [discriminate |].
  assert (Hstore : forall hl : list HDU,
            file_at (<[target := hl]> fs) target = Some hl)
    by (intros hl; unfold file_at; rewrite Hname; apply lookup_insert_eq).
  destruct (fs !! target) as [old|] eqn:Hold.
  - destruct overwrite; [| discriminate]. rewrite bind_Return. intros [= <-].
    cbn [hdulist_of self_of storage_of]. split; [reflexivity |].
    unfold fits_open. rewrite from_nifits_Path, Hstore.
    repeat split; try discriminate.
    intros other Hne. apply lookup_insert_ne. congruence.
  - rewrite bind_Return. intros [= <-].
    cbn [hdulist_of self_of storage_of]. split; [reflexivity |].
    unfold fits_open. rewrite from_nifits_Path, Hstore.
    repeat split.
    intros other Hne. apply lookup_insert_ne. congruence.
Qed.

Lemma to_nifits_writes_file_witness :
  exists s,
    to_nifits Sample.static_container ∅ "static.nifits" true false "" true false
      = Return s
    /\ to_nifits Sample.static_container ∅ "static.nifits" true false "" false false
       = Return (mkSaved (hdulist_of s) (self_of s) ∅)
    /\ fits_open (storage_of s) "static.nifits" = Return (hdulist_of s)
    /\ (forall other, other <> "static.nifits" ->
          storage_of s !! other = (∅ : storage) !! other)
    /\ from_nifits (storage_of s) (Path "static.nifits")
       = from_nifits ∅ (Opened (hdulist_of s))
    /\ (false = false -> (∅ : storage) !! "static.nifits" = None).
Proof.
  eexists. split; [vm_compute; reflexivity |].
  apply (to_nifits_writes_file Sample.static_container ∅ "static.nifits" "" true false
           false).
  vm_compute. reflexivity.
Defined.

(** ** The flags of the primary header *)

(** X22.  When every selected kind is [saveable], a save that writes no
    file returns, leaves the storage as it is, and has gone through all
    selected kinds: each selected kind the container has no attribute
    for is flagged "Not included" under its name in the primary header,
    each selected kind whose slot holds an object is flagged "Included",
    and a kind of the list that is not selected gets no flag. *)
Theorem to_nifits_manifest
    (self : nifits) (fs : storage) (filename static_hash : string)
    (static_only dynamic_only : bool) (kinds : list string) :
  extension_list static_only dynamic_only = Return kinds ->
  (forall k, k ∈ kinds -> saveable self k) ->
  exists s,
    to_nifits self fs filename static_only dynamic_only static_hash false false
      = Return s
    /\ storage_of s = fs
    /\ (forall k, k ∈ kinds ->
          manifest_flag (hdulist_of s) k =
            Some (HStr (if hasattr self (lower k) then "Included" else "Not included")))
    /\ (forall k, k ∈ NIFITS_EXTENSIONS -> k ∉ kinds ->
          manifest_flag (hdulist_of s) k = None).
Proof.
  intros Hkinds Hall. unfold to_nifits. rewrite Hkinds, bind_Return.
  destruct (save_loop kinds (mkSave self [] PrimaryHDU_header))
    as (st & -> & Hin & Hout).
  - apply kinds_lower_NoDup, (extension_list_cases _ _ _ Hkinds).
  - exact Hall.
  - rewrite bind_Return. eexists. split; [reflexivity |].
    cbn [storage_of hdulist_of manifest_flag hdu_header]. split; [reflexivity |]. split.
    + intros k Hk. apply (Hin k Hk).
    + intros k Hk Hnot. rewrite (Hout k Hnot). apply PrimaryHDU_header_no_flag, Hk.
Qed.

Lemma to_nifits_manifest_witness :
  (extension_list true false = Return static_kinds
   /\ (forall k, k ∈ static_kinds -> saveable Sample.static_container k))
  /\ exists s,
    to_nifits Sample.static_container ∅ "" true false "" false false = Return s
    /\ storage_of s = ∅
    /\ (forall k, k ∈ static_kinds ->
          manifest_flag (hdulist_of s) k =
            Some (HStr (if hasattr Sample.static_container (lower k)
                        then "Included" else "Not included")))
    /\ (forall k, k ∈ NIFITS_EXTENSIONS -> k ∉ static_kinds ->
          manifest_flag (hdulist_of s) k = None).
Proof.
  assert (Hall : forall k, k ∈ static_kinds -> saveable Sample.static_container k).
  { intros k Hk. repeat (apply elem_of_cons in Hk as [-> | Hk]).
    - intros Hh. discriminate Hh.
    - intros _. eexists. split; reflexivity.
    - intros _. eexists. split; reflexivity.
    - intros _. eexists. split; reflexivity.
    - inversion Hk. }
  split; [split; [reflexivity | exact Hall] |].
  apply (to_nifits_manifest Sample.static_container ∅ "" "" true false static_kinds);
    [reflexivity | exact Hall].
Defined.

(** In the container of the witness the array geometry is the selected
    kind without an attribute: it is the one flagged "Not included". *)
Lemma static_container_flags :
  exists s,
    to_nifits Sample.static_container ∅ "" true false "" false false = Return s
    /\ manifest_flag (hdulist_of s) "OI_ARRAY" = Some (HStr "Not included")
    /\ manifest_flag (hdulist_of s) "OI_WAVELENGTH" = Some (HStr "Included")
    /\ manifest_flag (hdulist_of s) "NI_CATM" = Some (HStr "Included")
    /\ manifest_flag (hdulist_of s) "NI_FOV" = Some (HStr "Included")
    /\ length (hdulist_of s) = 4%nat.
Proof.
  eexists. split; [vm_compute; reflexivity |]. repeat split.
Qed.
